(** * verify-boc.ts: the TEP-467 normalized hash and the BOC verifier

    A shallow embedding of [src/verify-boc.ts].  The program is a single
    TypeScript file that

    - computes the normalized hash of an external-in message
      ([getNormalizedExtMessageHash]),
    - parses the command line ([parseArgs]),
    - decodes a BOC, fetches the recent transactions of the destination
      account and scans them for a matching hash ([verifyBoc]),
    - maps the outcome to a process exit code ([main]).

    The libraries [@ton/core] and [@ton/ton] are not part of the program:
    their functions are the fields of the interfaces [TonCore] and
    [TonClient] below, and every theorem holds for all implementations of
    them. *)

From Stdlib Require Import ZArith List String Ascii Bool Lia.
From Stdlib.Strings Require Import Byte.
From stdpp Require Import base gmap strings list.

Open Scope string_scope.
Open Scope list_scope.
#[local] Set Warnings "-register-all".

(** ** Values of [@ton/core] the program handles *)

(** A cell: payload bits and ordered references. The program never looks
    inside one. *)
Inductive Cell : Type :=
  MkCell { cell_bits : list bool; cell_refs : list Cell }.

Record Address : Type := MkAddress { workChain : Z; addr_hash : N }.

#[export] Instance Address_eq_dec : EqDecision Address.
Proof. solve_decision. Defined.

Record ExternalAddress : Type := MkExternalAddress { ext_value : N; ext_bits : nat }.

Record StateInit : Type := MkStateInit { code : option Cell; data : option Cell }.

Record CurrencyCollection : Type :=
  MkCurrencyCollection { coins : Z; other : option (list (N * Z)) }.

(** [Buffer]: the result of [Cell.hash()]. *)
Definition Digest : Type := list byte.

(** [CommonMessageInfo]: the tagged union on the field [type].  [Maybe<T>]
    fields are options; [None] stands for both [null] and [undefined]. *)
Inductive CommonMessageInfo : Type :=
| Internal (ihrDisabled bounce bounced : bool) (src dest : Address)
    (value : CurrencyCollection) (ihrFee forwardFee createdLt createdAt : Z)
| ExternalIn (src : option ExternalAddress) (dest : Address) (importFee : Z)
| ExternalOut (src : Address) (dest : option ExternalAddress)
    (createdLt createdAt : Z).

Record Message : Type :=
  MkMessage { info : CommonMessageInfo; init : option StateInit; body : Cell }.

(** [message.info.type] *)
Definition info_type (i : CommonMessageInfo) : string :=
  match i with
  | Internal _ _ _ _ _ _ _ _ _ _ => "internal"
  | ExternalIn _ _ _ => "external-in"
  | ExternalOut _ _ _ _ => "external-out"
  end.

(** A transaction as [client.getTransactions] returns it.  [outMessages] is
    a [Dictionary]; only its size and its first value are read.  [tx_hash]
    is the value of the method [tx.hash()]. *)
Record Transaction : Type := MkTransaction {
  lt : Z;
  now : Z;
  inMessage : option Message;
  outMessages : list Message;
  tx_hash : Digest
}.

(** ** Exceptions *)

(** A thrown value.  Everything the libraries and the program throw is an
    [Error]; the program reads its [message] and prints its [stack]. *)
Record JsError : Type := MkError { message : string }.

Inductive Result (A : Type) : Type :=
| Ok (a : A)
| Throw (e : JsError).
Arguments Ok {A} a.
Arguments Throw {A} e.

(** ** The library interfaces *)

(** JavaScript numbers as the program meets them: integers and [NaN] (the
    result of [parseInt] on a string without digits). *)
Inductive JsNum : Type := Num (z : Z) | NaN.

(** The result of a property lookup on the [ENDPOINTS] object. *)
Inductive JsVal : Type :=
| VUndefined
| VString (s : string)
| VInherited (key : string) (* a member inherited from [Object.prototype] *).

(** [@ton/core].  [storeMessage m forceRef] stands for
    [beginCell().store(storeMessage(m, { forceRef })).endCell()]; it and
    [Cell.hash] do not throw.  A cell hash is a SHA-256 digest. *)
Class TonCore : Type := {
  Cell_fromBase64 : string -> Result Cell;
  loadMessage : Cell -> Result Message;
  storeMessage : Message -> bool -> Cell;
  Cell_hash : Cell -> Digest;
  Cell_hash_length : forall c : Cell, List.length (Cell_hash c) = 32%nat
}.

(** [@ton/ton]: [new TonClient({endpoint, apiKey}).getTransactions(address,
    {limit, archival})], the one network call. *)
Class TonClient : Type := {
  getTransactions :
    JsVal -> option string -> Address -> JsNum -> bool -> Result (list Transaction)
}.

(** The builtin [parseInt(s, 10)]; the argument is [None] when the program
    passes [undefined]. *)
Class JsBuiltins : Type := {
  parseInt10 : option string -> JsNum
}.

(** ** TEP-467 *)

Definition dquote : string := String (ascii_of_nat 34) EmptyString.

Section NormalizedHash.
Context `{TonCore}.

(** [getNormalizedExtMessageHash(message)].  After the tag test the two
    object spreads build a new [info] (every field of [message.info], then
    [src: undefined] and [importFee: 0n]) and a new message (every field of
    [message], then [init: null] and the new [info]). *)
Definition getNormalizedExtMessageHash (message : Message) : Result Digest :=
  match info message with
  | ExternalIn _ dest0 _ =>
      let info' := ExternalIn None dest0 0%Z in
      let normalizedMessage :=
        {| info := info'; init := None; body := body message |} in
      Ok (Cell_hash (storeMessage normalizedMessage true))
  | i =>
      Throw (MkError ("Message must be " +:+ dquote +:+ "external-in" +:+ dquote
                      +:+ ", got " +:+ info_type i))
  end.

End NormalizedHash.

(** ** CONFIG *)

(** [Config].  At run time [network] holds whatever string followed
    [--network] (the cast in [parseArgs] checks nothing), or [undefined]
    ([None]) when nothing followed it; likewise [apiKey]. *)
Record Config : Type := MkConfig {
  boc : string;
  network : option string;
  apiKey : option string;
  limit : JsNum;
  verbose : bool
}.

(** The own properties of the object literal [ENDPOINTS]. *)
Definition ENDPOINTS : gmap string string :=
  <["mainnet" := "https://toncenter.com/api/v2/jsonRPC"]>
  (<["testnet" := "https://testnet.toncenter.com/api/v2/jsonRPC"]> ∅).

(** An object literal inherits from [Object.prototype]; these are its
    property names. *)
Definition Object_prototype_keys : list string :=
  [ "constructor"; "__defineGetter__"; "__defineSetter__"; "hasOwnProperty";
    "__lookupGetter__"; "__lookupSetter__"; "isPrototypeOf";
    "propertyIsEnumerable"; "toString"; "valueOf"; "__proto__";
    "toLocaleString" ].

(** The property key a value of [config.network] is converted to. *)
Definition property_key (v : option string) : string :=
  match v with
  | Some s => s
  | None => "undefined"
  end.

(** [o[key]] on an object literal: own properties first, then the
    prototype, else [undefined]. *)
Definition js_get (o : gmap string string) (key : string) : JsVal :=
  match o !! key with
  | Some s => VString s
  | None =>
      if bool_decide (key ∈ Object_prototype_keys) then VInherited key
      else VUndefined
  end.

(** ** Console output and the trace of a run *)

Definition nl : string := String (ascii_of_nat 10) EmptyString.

(** Strings the program prints.  Text produced by a library or by the
    engine is kept symbolic. *)
Inductive Str : Type :=
| Lit (s : string)
| Cat (a b : Str)
| OfAddress (a : Address)   (* address.toString() *)
| OfHex (d : Digest)        (* buffer.toString('hex') *)
| OfBigInt (z : Z)          (* bigint.toString() *)
| OfNum (n : JsNum)         (* a number inside a template literal *)
| OfDate (ms : Z)           (* new Date(ms).toISOString() *)
| OfStack (e : JsError)     (* error.stack *).

Inductive LogArg : Type :=
| AStr (s : Str)
| ANum (n : JsNum)
| AVal (v : JsVal).

(** What a run does, in order: console output, library calls, reads of
    [transactions[i]] and calls of [getNormalizedExtMessageHash]. *)
Inductive Event : Type :=
| EvLog (args : list LogArg)          (* console.log *)
| EvError (args : list LogArg)        (* console.error *)
| EvFromBase64 (s : string)           (* Cell.fromBase64 *)
| EvLoadMessage (c : Cell)            (* loadMessage(cell.beginParse()) *)
| EvHash (m : Message)                (* getNormalizedExtMessageHash(m) *)
| EvNewClient (endpoint : JsVal) (key : option string) (* new TonClient *)
| EvGetTransactions (endpoint : JsVal) (key : option string)
    (a : Address) (lim : JsNum) (archival : bool)
| EvIndex (i : nat)                   (* transactions[i] *).

(** Code that writes to the trace and may throw. *)
Definition M (A : Type) : Type := (list Event * Result A)%type.

Definition ret {A} (a : A) : M A := ([], Ok a).

Definition bind {A B} (c : M A) (k : A -> M B) : M B :=
  match c with
  | (t, Ok a) => let '(t', r) := k a in (t ++ t', r)
  | (t, Throw e) => (t, Throw e)
  end.

Notation "x <- c ;; k" := (bind c (fun x => k))
  (at level 100, c at next level, right associativity).
Notation "c ;; k" := (bind c (fun _ => k))
  (at level 100, right associativity).

Definition emit (e : Event) : M unit := ([e], Ok tt).
Definition throw {A} (e : JsError) : M A := ([], Throw e).
Definition call {A} (e : Event) (r : Result A) : M A := ([e], r).
Definition console_log (args : list LogArg) : M unit := emit (EvLog args).
Definition when (b : bool) (c : M unit) : M unit := if b then c else ret tt.

(** [a.equals(b)] on buffers. *)
Fixpoint Buffer_equals (a b : Digest) : bool :=
  match a, b with
  | [], [] => true
  | x :: a', y :: b' => Byte.eqb x y && Buffer_equals a' b'
  | _, _ => false
  end.

(** A string is truthy when it is not empty; [undefined] is falsy. *)
Definition truthy (s : option string) : bool :=
  match s with
  | Some (String _ _) => true
  | _ => false
  end.

(** [s.slice(-4)] (on the ASCII strings API keys are). *)
Definition slice_last4 (s : string) : string :=
  String.substring (String.length s - 4) 4 s.

(** [tx.inMessage?.info.type === 'external-in'], with the narrowed
    message and its [dest]. *)
Definition external_in_of (m : option Message) : option (Message * Address) :=
  match m with
  | Some msg =>
      match info msg with
      | ExternalIn _ d _ => Some (msg, d)
      | _ => None
      end
  | None => None
  end.

(** ** PARSER *)

Definition unlines (ls : list string) : string :=
  fold_right (fun l acc => l +:+ nl +:+ acc) EmptyString ls.

(** The help text (a template literal that starts with a line break). *)
Definition help_text : string :=
  nl +:+ unlines
  [ "🔍 BOC Transaction Verifier";
    EmptyString;
    "Usage:";
    "  npx ts-node verify-boc.ts <BOC> [options]";
    EmptyString;
    "Arguments:";
    "  <BOC>              Transaction BOC in base64 (required)";
    EmptyString;
    "Options:";
    "  --network <net>    Network: mainnet or testnet (default: mainnet)";
    "  --api-key <key>    TONCenter API key (optional)";
    "  --limit <num>      Number of transactions to check (default: 10)";
    "  --verbose          Show detailed output";
    "  -h, --help         Show this help";
    EmptyString;
    "Examples:";
    "  npx ts-node verify-boc.ts " +:+ dquote +:+ "te6cck..." +:+ dquote;
    "  npx ts-node verify-boc.ts " +:+ dquote +:+ "te6cck..." +:+ dquote
      +:+ " --network testnet --api-key " +:+ dquote +:+ "your_key" +:+ dquote;
    "  npx ts-node verify-boc.ts " +:+ dquote +:+ "te6cck..." +:+ dquote
      +:+ " --limit 100 --verbose" ].

(** [parseArgs] either prints the help and ends the process with code 0
    ([ExitHelp]; [main] below writes the line to the trace), or returns a
    configuration. *)
Inductive ParseResult : Type :=
| ExitHelp
| Parsed (c : Config).

Definition set_network (v : option string) (c : Config) : Config :=
  {| boc := boc c; network := v; apiKey := apiKey c; limit := limit c;
     verbose := verbose c |}.
Definition set_apiKey (v : option string) (c : Config) : Config :=
  {| boc := boc c; network := network c; apiKey := v; limit := limit c;
     verbose := verbose c |}.
Definition set_limit (v : JsNum) (c : Config) : Config :=
  {| boc := boc c; network := network c; apiKey := apiKey c; limit := v;
     verbose := verbose c |}.
Definition set_verbose (v : bool) (c : Config) : Config :=
  {| boc := boc c; network := network c; apiKey := apiKey c; limit := limit c;
     verbose := v |}.

Section Parser.
Context `{JsBuiltins}.

(** The [for]/[switch] over [args[1..]].  An option that takes a value
    consumes the next argument ([args[++i]]), which is [undefined] when
    the option is the last argument; the loop then ends.  Unknown
    arguments are passed over. *)
Fixpoint parseOptions (args : list string) (config : Config) : Config :=
  match args with
  | [] => config
  | a :: rest =>
      if String.eqb a "--network" then
        match rest with
        | v :: rest' => parseOptions rest' (set_network (Some v) config)
        | [] => set_network None config
        end
      else if String.eqb a "--api-key" then
        match rest with
        | v :: rest' => parseOptions rest' (set_apiKey (Some v) config)
        | [] => set_apiKey None config
        end
      else if String.eqb a "--limit" then
        match rest with
        | v :: rest' => parseOptions rest' (set_limit (parseInt10 (Some v)) config)
        | [] => set_limit (parseInt10 None) config
        end
      else if String.eqb a "--verbose" then
        parseOptions rest (set_verbose true config)
      else parseOptions rest config
  end.

(** [parseArgs()], on [args = process.argv.slice(2)]. *)
Definition parseArgs (args : list string) : ParseResult :=
  match args with
  | [] => ExitHelp
  | a0 :: rest =>
      if String.eqb a0 "--help" || String.eqb a0 "-h" then ExitHelp
      else
        let config :=
          {| boc := a0; network := Some "mainnet"; apiKey := None;
             limit := Num 10; verbose := false |} in
        Parsed (parseOptions rest config)
  end.

End Parser.

(** ** VERIFIER *)

Definition js_of_option (v : option string) : JsVal :=
  match v with
  | Some s => VString s
  | None => VUndefined
  end.

Definition Num_of_nat (n : nat) : JsNum := Num (Z.of_nat n).

(** What leaves the [for] loop: a [return] from inside it, or its end. *)
Inductive LoopExit : Type :=
| Returned (b : bool)
| Completed.

Section Verifier.
Context `{TonCore} `{TonClient}.

(** A call of [getNormalizedExtMessageHash] from [verifyBoc]. *)
Definition callHash (m : Message) : M Digest :=
  call (EvHash m) (getNormalizedExtMessageHash m).

(** The output of the branch taken on a match.  [tx.now] is a 32-bit
    Unix time, so the date is valid and [toISOString] does not throw. *)
Definition report_found (i total : nat) (tx : Transaction) (d : Address) : M unit :=
  console_log [AStr (Lit ("🎉 ✅ TRANSACTION FOUND!" +:+ nl))] ;;
  console_log [AStr (Lit "=== Details ===")] ;;
  console_log [AStr (Lit "Position:"); ANum (Num_of_nat (i + 1));
               AStr (Lit "of"); ANum (Num_of_nat total)] ;;
  console_log [AStr (Lit "LT (Logical Time):"); AStr (OfBigInt (lt tx))] ;;
  console_log [AStr (Lit "Cell Hash:"); AStr (OfHex (tx_hash tx))] ;;
  console_log [AStr (Lit "Timestamp:"); AStr (OfDate (now tx * 1000))] ;;
  console_log [AStr (Lit "Destination:"); AStr (OfAddress d)] ;;
  when (0 <? List.length (outMessages tx))%nat
    (console_log [AStr (Lit "Out messages:");
                  ANum (Num_of_nat (List.length (outMessages tx)))] ;;
     match outMessages tx with
     | {| info := Internal _ _ _ _ d' _ _ _ _ _ |} :: _ =>
         console_log [AStr (Lit "First out dest:"); AStr (OfAddress d')]
     | _ => ret tt
     end) ;;
  console_log [AStr (Lit (nl +:+ "✅ Transaction verified on blockchain!"))].

(** Step 5: the [for] loop from index [i] on, [rest] being
    [transactions[i..]] and [total] being [transactions.length]. *)
Fixpoint search (config : Config) (normalizedHash : Digest) (total : nat)
    (i : nat) (rest : list Transaction) : M LoopExit :=
  match rest with
  | [] => ret Completed
  | tx :: rest' =>
      emit (EvIndex i) ;;
      when (verbose config)
        (console_log
           [AStr (Cat (Lit "[")
                 (Cat (OfNum (Num_of_nat (i + 1)))
                 (Cat (Lit "/")
                 (Cat (OfNum (Num_of_nat total))
                 (Cat (Lit "] LT: ")
                 (Cat (OfBigInt (lt tx))
                 (Cat (Lit ", Time: ") (OfDate (now tx * 1000)))))))))]) ;;
      match external_in_of (inMessage tx) with
      | None =>
          when (verbose config)
            (console_log [AStr (Lit "      Skipped (not external-in)")]) ;;
          search config normalizedHash total (S i) rest'
      | Some (inMsg, d) =>
          txHash <- callHash inMsg ;;
          if Buffer_equals txHash normalizedHash then
            report_found i total tx d ;;
            ret (Returned true)
          else
            when (verbose config) (console_log [AStr (Lit "      No match")]) ;;
            search config normalizedHash total (S i) rest'
      end
  end.

(** The body of the [try] block of [verifyBoc]. *)
Definition verifyBoc_try (config : Config) : M bool :=
  console_log [AStr (Lit ("🔍 BOC Transaction Verifier" +:+ nl))] ;;
  (* Step 1: Parse BOC *)
  when (verbose config) (console_log [AStr (Lit "📦 Parsing BOC...")]) ;;
  cell <- call (EvFromBase64 (boc config)) (Cell_fromBase64 (boc config)) ;;
  message <- call (EvLoadMessage cell) (loadMessage cell) ;;
  match info message with
  | ExternalIn _ targetAddress _ =>
      console_log [AStr (Lit "✅ BOC parsed")] ;;
      console_log [AStr (Lit "   Address:"); AStr (OfAddress targetAddress)] ;;
      (* Step 2: Calculate normalized hash *)
      when (verbose config)
        (console_log
           [AStr (Lit (nl +:+ "🔐 Calculating normalized hash (TEP-467)..."))]) ;;
      normalizedHash <- callHash message ;;
      console_log [AStr (Lit "   Hash:"); AStr (OfHex normalizedHash)] ;;
      (* Step 3: Connect to blockchain *)
      when (verbose config)
        (console_log [AStr (Lit (nl +:+ "🌐 Connecting to blockchain..."))]) ;;
      let endpoint := js_get ENDPOINTS (property_key (network config)) in
      emit (EvNewClient endpoint (apiKey config)) ;;
      console_log [AStr (Lit "   Network:"); AVal (js_of_option (network config))] ;;
      console_log [AStr (Lit "   Endpoint:"); AVal endpoint] ;;
      (if truthy (apiKey config) then
         console_log
           [AStr (Cat (Lit "   API Key: ***")
                      (Lit (slice_last4 (default EmptyString (apiKey config)))))]
       else
         console_log [AStr (Lit "   API Key: none (public endpoint, rate limited)")]) ;;
      (* Step 4: Fetch transactions *)
      when (verbose config)
        (console_log
           [AStr (Cat (Lit (nl +:+ "📡 Fetching last "))
                 (Cat (OfNum (limit config)) (Lit " transactions...")))]) ;;
      transactions <-
        call (EvGetTransactions endpoint (apiKey config) targetAddress
                (limit config) true)
             (getTransactions endpoint (apiKey config) targetAddress
                (limit config) true) ;;
      console_log
        [AStr (Cat (Lit "   Found: ")
              (Cat (OfNum (Num_of_nat (List.length transactions)))
                   (Lit " transactions")))] ;;
      if (List.length transactions =? 0)%nat then
        console_log [AStr (Lit (nl +:+ "⚠️  No transactions found for this address"))] ;;
        ret false
      else
        (* Step 5: Search *)
        console_log [AStr (Lit (nl +:+ "🔎 Searching for matching transaction..." +:+ nl))] ;;
        exit <- search config normalizedHash (List.length transactions) 0 transactions ;;
        match exit with
        | Returned b => ret b
        | Completed =>
            console_log [AStr (Lit "❌ Transaction not found in the last");
                         ANum (limit config);
                         AStr (Lit ("transactions" +:+ nl))] ;;
            console_log [AStr (Lit "💡 Try:")] ;;
            console_log [AStr (Lit "   - Wait 30 seconds and retry (transaction might not be confirmed yet)")] ;;
            console_log [AStr (Lit "   - Increase --limit to check more transactions")] ;;
            console_log [AStr (Lit "   - Check if BOC is from correct network (testnet vs mainnet)")] ;;
            ret false
        end
  | i =>
      throw (MkError ("Expected external-in message, got " +:+ info_type i))
  end.

(** The [catch] block: every error is printed and ends in [false]. *)
Definition on_error (config : Config) (e : JsError) : list Event :=
  EvError [AStr (Lit (nl +:+ "❌ Error:")); AStr (Lit (message e))]
  :: (if verbose config
      then [EvError [AStr (Lit (nl +:+ "Stack trace:")); AStr (OfStack e)]]
      else []).

(** [verifyBoc(config)]: the trace of the run and the promised boolean. *)
Definition verifyBoc (config : Config) : list Event * bool :=
  match verifyBoc_try config with
  | (t, Ok found) => (t, found)
  | (t, Throw e) => (t ++ on_error config e, false)
  end.

End Verifier.

(** ** MAIN *)

Section Main.
Context `{TonCore} `{TonClient} `{JsBuiltins}.

(** [main()]: the trace and the code given to [process.exit]. *)
Definition main (args : list string) : list Event * Z :=
  match parseArgs args with
  | ExitHelp => ([EvLog [AStr (Lit help_text)]], 0%Z)
  | Parsed config =>
      let '(t, found) := verifyBoc config in
      (t, if found then 0%Z else 1%Z)
  end.

End Main.

(** ** The object store

    JavaScript objects are property maps held by reference.  To say that
    [getNormalizedExtMessageHash] changes no object, the function is
    modelled a second time over a store of such objects; the typed
    function above is what it computes. *)

Definition loc : Type := positive.

(** A property value.  Library objects that the program never changes
    (addresses, cells, ...) are values; plain objects are references. *)
Inductive Value : Type :=
| OUndefined
| ONull
| OString (s : string)
| OBool (b : bool)
| OBigInt (z : Z)
| ONumber (z : Z)
| OAddress (a : Address)
| OExternalAddress (a : ExternalAddress)
| OCurrency (v : CurrencyCollection)
| OStateInit (s : StateInit)
| OCell (c : Cell)
| ORef (l : loc).

(** [o.k]: a missing property reads [undefined]. *)
Definition get_field (o : gmap string Value) (k : string) : Value :=
  default OUndefined (o !! k).

Definition as_bool (v : Value) : option bool :=
  match v with OBool b => Some b | _ => None end.
Definition as_bigint (v : Value) : option Z :=
  match v with OBigInt z => Some z | _ => None end.
Definition as_number (v : Value) : option Z :=
  match v with ONumber z => Some z | _ => None end.
Definition as_address (v : Value) : option Address :=
  match v with OAddress a => Some a | _ => None end.
Definition as_currency (v : Value) : option CurrencyCollection :=
  match v with OCurrency c => Some c | _ => None end.
Definition as_cell (v : Value) : option Cell :=
  match v with OCell c => Some c | _ => None end.
Definition as_maybe_external (v : Value) : option (option ExternalAddress) :=
  match v with
  | OUndefined | ONull => Some None
  | OExternalAddress a => Some (Some a)
  | _ => None
  end.
Definition as_maybe_init (v : Value) : option (option StateInit) :=
  match v with
  | OUndefined | ONull => Some None
  | OStateInit s => Some (Some s)
  | _ => None
  end.

(** The [CommonMessageInfo] an object holds, if it is one. *)
Definition read_info (o : gmap string Value) : option CommonMessageInfo :=
  match get_field o "type" with
  | OString t =>
      if String.eqb t "internal" then
        ihrDisabled ← as_bool (get_field o "ihrDisabled");
        bounce ← as_bool (get_field o "bounce");
        bounced ← as_bool (get_field o "bounced");
        src ← as_address (get_field o "src");
        dest ← as_address (get_field o "dest");
        value ← as_currency (get_field o "value");
        ihrFee ← as_bigint (get_field o "ihrFee");
        forwardFee ← as_bigint (get_field o "forwardFee");
        createdLt ← as_bigint (get_field o "createdLt");
        createdAt ← as_number (get_field o "createdAt");
        Some (Internal ihrDisabled bounce bounced src dest value ihrFee
                forwardFee createdLt createdAt)
      else if String.eqb t "external-in" then
        src ← as_maybe_external (get_field o "src");
        dest ← as_address (get_field o "dest");
        importFee ← as_bigint (get_field o "importFee");
        Some (ExternalIn src dest importFee)
      else if String.eqb t "external-out" then
        src ← as_address (get_field o "src");
        dest ← as_maybe_external (get_field o "dest");
        createdLt ← as_bigint (get_field o "createdLt");
        createdAt ← as_number (get_field o "createdAt");
        Some (ExternalOut src dest createdLt createdAt)
      else None
  | _ => None
  end.

(** The [Message] held at a location of the store, if there is one. *)
Definition read_message (h : gmap loc (gmap string Value)) (l : loc) : option Message :=
  o ← h !! l;
  match get_field o "info" with
  | ORef li =>
      io ← h !! li;
      i ← read_info io;
      ini ← as_maybe_init (get_field o "init");
      b ← as_cell (get_field o "body");
      Some (MkMessage i ini b)
  | _ => None
  end.

(** An object literal makes a new object. *)
Definition alloc (h : gmap loc (gmap string Value)) (o : gmap string Value)
  : loc * gmap loc (gmap string Value) :=
  let l := fresh (dom h) in (l, <[l := o]> h).

Section ObjectStore.
Context `{TonCore}.

(** [getNormalizedExtMessageHash(message)] on the store: the store after
    the call and the result.  The result is [None] only when [message] is
    not a [Message] (which the type checker excludes).  A spread copies
    the own properties of its operand into the new object; the properties
    written after it overwrite the copies.  [storeMessage] is given the
    message it reads from the new object. *)
Definition getNormalizedExtMessageHash_obj
    (h : gmap loc (gmap string Value)) (message : loc)
  : gmap loc (gmap string Value) * option (Result Digest) :=
  match h !! message with
  | Some mo =>
      match get_field mo "info" with
      | ORef li =>
          match h !! li with
          | Some io =>
              match get_field io "type" with
              | OString t =>
                  if negb (String.eqb t "external-in") then
                    (h, Some (Throw (MkError
                       ("Message must be " +:+ dquote +:+ "external-in" +:+ dquote
                        +:+ ", got " +:+ t))))
                  else
                    let '(info', h1) :=
                      alloc h (<["importFee" := OBigInt 0]>
                               (<["src" := OUndefined]> io)) in
                    let '(normalizedMessage, h2) :=
                      alloc h1 (<["info" := ORef info']>
                                (<["init" := ONull]> mo)) in
                    (h2, (fun nm => Ok (Cell_hash (storeMessage nm true)))
                           <$> read_message h2 normalizedMessage)
              | _ => (h, None)
              end
          | None => (h, None)
          end
      | _ => (h, None)
      end
  | None => (h, None)
  end.

End ObjectStore.

(** ** The normalized message, as a specification *)

(** The spec's [NormalizedMessage] (section 4.3, step 2), written from its
    words: a copy of [info] with [src] cleared and [importFee] zero, [init]
    empty, [body] unchanged.  Messages that are not external-in have no
    normal form. *)
Definition NormalizedMessage (m : Message) : option Message :=
  match info m with
  | ExternalIn _ d _ =>
      Some {| info := ExternalIn None d 0%Z; init := None; body := body m |}
  | _ => None
  end.

Definition is_external_in (m : Message) : Prop := info_type (info m) = "external-in".

(** Two external-in messages that agree on everything but [src],
    [importFee] and [init]. *)
Definition same_up_to_src_importFee_init (m1 m2 : Message) : Prop :=
  exists s1 s2 d f1 f2,
    info m1 = ExternalIn s1 d f1 /\ info m2 = ExternalIn s2 d f2 /\
    body m1 = body m2.

(** The networks [ENDPOINTS] has an entry for. *)
Definition known_network (k : string) : Prop := k = "mainnet" \/ k = "testnet".

(** ** Observations on a trace *)

Definition is_fetch (e : Event) : bool :=
  match e with
  | EvGetTransactions _ _ _ _ _ => true
  | _ => false
  end.

Definition is_console_error (e : Event) : bool :=
  match e with
  | EvError _ => true
  | _ => false
  end.

(** The calls of [getTransactions], in order, and how many there were. *)
Definition fetches (t : list Event) : list Event := List.filter is_fetch t.

Definition fetch_count (t : list Event) : nat := List.length (fetches t).

(** How many lines went to [console.error]. *)
Definition error_count (t : list Event) : nat :=
  List.length (List.filter is_console_error t).

(** The messages [getNormalizedExtMessageHash] was called on, in order. *)
Definition hashed (t : list Event) : list Message :=
  omap (fun e => match e with EvHash m => Some m | _ => None end) t.

(** The indices [transactions[i]] was read at, in order. *)
Definition indices (t : list Event) : list nat :=
  omap (fun e => match e with EvIndex i => Some i | _ => None end) t.

(** The line [Position: p of n] of the report. *)
Definition position_line (p n : nat) : Event :=
  EvLog [AStr (Lit "Position:"); ANum (Num_of_nat p);
         AStr (Lit "of"); ANum (Num_of_nat n)].

(** ** The scan, as a specification *)

Section ScanSpec.
Context `{TonCore}.

(** A transaction matches when its inbound message is external-in and
    its normalized hash equals the target byte for byte. *)
Definition matchesb (target : Digest) (tx : Transaction) : bool :=
  match external_in_of (inMessage tx) with
  | Some (m, _) =>
      match getNormalizedExtMessageHash m with
      | Ok dg => Buffer_equals dg target
      | Throw _ => false
      end
  | None => false
  end.

(** The list position of the first match. *)
Fixpoint first_match (target : Digest) (txs : list Transaction) : option nat :=
  match txs with
  | [] => None
  | tx :: rest =>
      if matchesb target tx then Some 0%nat
      else S <$> first_match target rest
  end.

(** How many candidates a scan looks at: up to and including the first
    match, or all of them. *)
Definition examined (target : Digest) (txs : list Transaction) : nat :=
  match first_match target txs with
  | Some k => S k
  | None => List.length txs
  end.

(** The external-in inbound messages of a list, in order. *)
Definition candidates (txs : list Transaction) : list Message :=
  omap (fun tx => fst <$> external_in_of (inMessage tx)) txs.

End ScanSpec.

(** ** The verifier, as a specification *)

Section VerifierSpec.
Context `{TonCore} `{TonClient}.

(** The endpoint the client of a run is built with. *)
Definition endpoint_of (c : Config) : JsVal :=
  js_get ENDPOINTS (property_key (network c)).

(** The target hash of a decoded external-in message to [d] with body [b]. *)
Definition target_hash (d : Address) (b : Cell) : Digest :=
  Cell_hash (storeMessage (MkMessage (ExternalIn None d 0%Z) None b) true).

Definition no_transactions_line : Event :=
  EvLog [AStr (Lit (nl +:+ "⚠️  No transactions found for this address"))].

(** Nothing but console output and decoding happened. *)
Definition before_fetch (t : list Event) : Prop :=
  fetch_count t = 0%nat /\ error_count t = 0%nat /\
  hashed t = [] /\ indices t = [] /\
  forall ep k, ~ In (EvNewClient ep k) t.

(** What a run of the [try] block does, by the answers of the
    libraries. *)
Definition verifyBoc_try_post (c : Config) : Prop :=
  match Cell_fromBase64 (boc c) with
  | Throw e => exists t, verifyBoc_try c = (t, Throw e) /\ before_fetch t
  | Ok cell =>
      match loadMessage cell with
      | Throw e => exists t, verifyBoc_try c = (t, Throw e) /\ before_fetch t
      | Ok msg =>
          match info msg with
          | ExternalIn _ d _ =>
              match getTransactions (endpoint_of c) (apiKey c) d (limit c) true with
              | Throw e =>
                  exists t, verifyBoc_try c = (t, Throw e) /\
                    fetches t = [EvGetTransactions (endpoint_of c) (apiKey c)
                                   d (limit c) true] /\
                    error_count t = 0%nat /\
                    hashed t = [msg] /\ indices t = [] /\
                    In (EvNewClient (endpoint_of c) (apiKey c)) t
              | Ok txs =>
                  let target := target_hash d (body msg) in
                  exists t,
                    verifyBoc_try c =
                      (t, Ok (match first_match target txs with
                              | Some _ => true
                              | None => false
                              end)) /\
                    fetches t = [EvGetTransactions (endpoint_of c) (apiKey c)
                                   d (limit c) true] /\
                    error_count t = 0%nat /\
                    hashed t = msg :: candidates (take (examined target txs) txs) /\
                    indices t = seq 0 (examined target txs) /\
                    In (EvNewClient (endpoint_of c) (apiKey c)) t /\
                    (forall k, first_match target txs = Some k ->
                       In (position_line (k + 1) (List.length txs)) t) /\
                    (txs = [] -> last t = Some no_transactions_line)
              end
          | i =>
              exists t,
                verifyBoc_try c =
                  (t, Throw (MkError ("Expected external-in message, got "
                                      +:+ info_type i))) /\
                before_fetch t
          end
      end
  end.

End VerifierSpec.

(** ** A sample world

    A small implementation of the three interfaces, used to run the
    program on concrete inputs. *)
Module Sample.

Definition addrA : Address := MkAddress 0 1.
Definition addrB : Address := MkAddress 0 2.
Definition body1 : Cell := MkCell [true; false; true] [].
Definition body2 : Cell := MkCell [false; false] [].
Definition ext1 : ExternalAddress := MkExternalAddress 7 8.
Definition init1 : StateInit := MkStateInit (Some body2) None.

(** The submitted message, and the same message as the chain stores it. *)
Definition msg_sent : Message :=
  MkMessage (ExternalIn (Some ext1) addrA 5) (Some init1) body1.
Definition msg_landed : Message :=
  MkMessage (ExternalIn None addrA 0) None body1.
Definition msg_other : Message :=
  MkMessage (ExternalIn None addrA 0) None body2.
Definition msg_to_B : Message :=
  MkMessage (ExternalIn None addrB 0) None body1.
Definition msg_internal : Message :=
  MkMessage (Internal true false false addrB addrA
               (MkCurrencyCollection 1000 None) 0 0 100 1700000000) None body2.

Definition digest0 : Digest := repeat x00 32.

Definition tx_internal : Transaction := MkTransaction 30 1700000300 (Some msg_internal) [] digest0.
Definition tx_tick : Transaction := MkTransaction 25 1700000250 None [] digest0.
Definition tx_other : Transaction := MkTransaction 20 1700000200 (Some msg_other) [] digest0.
Definition tx_landed : Transaction :=
  MkTransaction 10 1700000100 (Some msg_landed) [msg_internal] digest0.

Definition bits_of_address (a : Address) : list bool :=
  [Z.odd (workChain a); N.odd (addr_hash a); N.odd (N.div2 (addr_hash a))].

Definition bits_of_info (i : CommonMessageInfo) : list bool :=
  match i with
  | Internal _ _ _ _ d _ _ _ _ _ => false :: bits_of_address d
  | ExternalIn s d f =>
      true :: false :: bool_decide (is_Some s) :: Z.odd f :: bits_of_address d
  | ExternalOut _ _ _ _ => [true; true]
  end.

(** A toy serialization: header bits, an init flag, a body flag, and the
    body inline or as a reference. *)
Definition store (m : Message) (forceRef : bool) : Cell :=
  let header :=
    bits_of_info (info m) ++ [bool_decide (is_Some (init m))] in
  if forceRef then MkCell (header ++ [true]) [body m]
  else MkCell (header ++ [false] ++ cell_bits (body m)) (cell_refs (body m)).

(** A toy digest of 32 bytes: one byte per leading bit of the root and of
    its first reference. *)
Definition hash (c : Cell) : Digest :=
  let bits :=
    cell_bits c ++
    match cell_refs c with
    | r :: _ => cell_bits r
    | [] => []
    end in
  take 32 (map (fun b : bool => if b then x01 else x00) bits ++ repeat x00 32).

Lemma hash_length (c : Cell) : List.length (hash c) = 32%nat.
Proof.
  unfold hash. rewrite length_take, length_app, repeat_length. lia.
Qed.

Definition fromBase64 (s : string) : Result Cell :=
  if String.eqb s "sent" then Ok (MkCell [true] [])
  else if String.eqb s "to-B" then Ok (MkCell [true; true] [])
  else if String.eqb s "internal" then Ok (MkCell [false] [])
  else if String.eqb s "garbage" then Ok (MkCell [] [])
  else Throw (MkError "Invalid base64 BOC").

Definition load (c : Cell) : Result Message :=
  match cell_bits c with
  | [true] => Ok msg_sent
  | [true; true] => Ok msg_to_B
  | [false] => Ok msg_internal
  | _ => Throw (MkError "Unknown message prefix")
  end.

#[export] Instance core : TonCore :=
  {| Cell_fromBase64 := fromBase64;
     loadMessage := load;
     storeMessage := store;
     Cell_hash := hash;
     Cell_hash_length := hash_length |}.

(** The chain: three transactions at [addrA], none at [addrB]; without
    an endpoint URL the request fails. *)
#[export] Instance client : TonClient :=
  {| getTransactions endpoint key a lim archival :=
       match endpoint with
       | VString _ =>
           if bool_decide (a = addrA)
           then Ok [tx_internal; tx_tick; tx_other; tx_landed]
           else Ok []
       | _ => Throw (MkError "Invalid URL")
       end |}.

(** [parseInt] on the two strings the examples use. *)
#[export] Instance builtins : JsBuiltins :=
  {| parseInt10 s :=
       match s with
       | Some "50" => Num 50
       | Some "100" => Num 100
       | _ => NaN
       end |}.

Definition config_of (b : string) : Config :=
  {| boc := b; network := Some "mainnet"; apiKey := None; limit := Num 10;
     verbose := false |}.

End Sample.

(** The sample message as objects of a store: the message at location 2,
    its [info] at location 1. *)
Module SampleStore.
Definition info_obj : gmap string Value :=
  <["type" := OString "external-in"]>
  (<["src" := OExternalAddress Sample.ext1]>
  (<["dest" := OAddress Sample.addrA]>
  (<["importFee" := OBigInt 5]> ∅))).
Definition msg_obj : gmap string Value :=
  <["info" := ORef 1%positive]>
  (<["init" := OStateInit Sample.init1]>
  (<["body" := OCell Sample.body1]> ∅)).
Definition store0 : gmap loc (gmap string Value) :=
  <[1%positive := info_obj]> (<[2%positive := msg_obj]> ∅).
End SampleStore.


(** ** More observations on a trace *)

(** Console output, as opposed to what a run does. *)
Definition is_console (e : Event) : bool :=
  match e with
  | EvLog _ | EvError _ => true
  | _ => false
  end.

(** What a run does besides printing. *)
Definition actions (t : list Event) : list Event :=
  List.filter (fun e => negb (is_console e)) t.


(** The lines of the report about the transaction found. *)
Definition report_lines (tx : Transaction) (d : Address) : list Event :=
  [ EvLog [AStr (Lit "LT (Logical Time):"); AStr (OfBigInt (lt tx))];
    EvLog [AStr (Lit "Cell Hash:"); AStr (OfHex (tx_hash tx))];
    EvLog [AStr (Lit "Timestamp:"); AStr (OfDate (now tx * 1000))];
    EvLog [AStr (Lit "Destination:"); AStr (OfAddress d)] ].

(** The lines about the outbound messages: their number when there is
    one at least, and the destination of the first when it is internal. *)
Definition out_lines (tx : Transaction) : list Event :=
  match outMessages tx with
  | [] => []
  | first :: _ =>
      EvLog [AStr (Lit "Out messages:");
             ANum (Num_of_nat (List.length (outMessages tx)))]
      :: match info first with
         | Internal _ _ _ _ d' _ _ _ _ _ =>
             [EvLog [AStr (Lit "First out dest:"); AStr (OfAddress d')]]
         | _ => []
         end
  end.

(** The line printed when the list was scanned without a match. *)
Definition not_found_line (c : Config) : Event :=
  EvLog [AStr (Lit "❌ Transaction not found in the last"); ANum (limit c);
         AStr (Lit ("transactions" +:+ nl))].

(** The same chain before the submitted message landed. *)
Module SampleBefore.

#[export] Instance client : TonClient :=
  {| getTransactions endpoint key a lim archival :=
       match endpoint with
       | VString _ =>
           if bool_decide (a = Sample.addrA)
           then Ok [Sample.tx_internal; Sample.tx_tick; Sample.tx_other]
           else Ok []
       | _ => Throw (MkError "Invalid URL")
       end |}.

End SampleBefore.

(** * Properties *)

(** ** The normalized hash *)

Lemma Buffer_equals_eq (a b : Digest) : Buffer_equals a b = true <-> a = b.
Proof.
  revert b. induction a as [|x a IH]; intros [|y b]; simpl; try easy.
  rewrite andb_true_iff, IH. split.
  - intros [Hxy ->]. apply byte_dec_bl in Hxy. now subst.
  - intros [= -> ->]. split; [now apply byte_dec_lb | reflexivity].
Qed.

Lemma info_type_external_in (i : CommonMessageInfo) :
  info_type i = "external-in" <-> exists s d f, i = ExternalIn s d f.
Proof.
  split.
  - destruct i; simpl; try discriminate. eauto.
  - intros (s & d & f & ->). reflexivity.
Qed.

(** *** Reading the object store *)

Lemma read_info_type (io : gmap string Value) (i : CommonMessageInfo) :
  read_info io = Some i -> get_field io "type" = OString (info_type i).
Proof.
  unfold read_info. destruct (get_field io "type") as [| |t| | | | | | | | |]; try discriminate.
  destruct (String.eqb t "internal") eqn:E1.
  { apply String.eqb_eq in E1 as ->. intros Hr. simplify_option_eq. reflexivity. }
  destruct (String.eqb t "external-in") eqn:E2.
  { apply String.eqb_eq in E2 as ->. intros Hr. simplify_option_eq. reflexivity. }
  destruct (String.eqb t "external-out") eqn:E3; [|discriminate].
  apply String.eqb_eq in E3 as ->. intros Hr. simplify_option_eq. reflexivity.
Qed.

Lemma get_field_insert_eq (o : gmap string Value) (k : string) (v : Value) :
  get_field (<[k := v]> o) k = v.
Proof. unfold get_field. now rewrite lookup_insert_eq. Qed.

Lemma get_field_insert_ne (o : gmap string Value) (k k' : string) (v : Value) :
  k <> k' -> get_field (<[k := v]> o) k' = get_field o k'.
Proof. intros Hk. unfold get_field. now rewrite lookup_insert_ne. Qed.

Lemma read_info_external_in (io : gmap string Value) s d f :
  read_info io = Some (ExternalIn s d f) <->
  get_field io "type" = OString "external-in" /\
  as_maybe_external (get_field io "src") = Some s /\
  as_address (get_field io "dest") = Some d /\
  as_bigint (get_field io "importFee") = Some f.
Proof.
  unfold read_info. split.
  - destruct (get_field io "type") as [| |t| | | | | | | | |]; try discriminate.
    destruct (String.eqb t "internal") eqn:E1.
    { intros Hr. simplify_option_eq. }
    destruct (String.eqb t "external-in") eqn:E2.
    { apply String.eqb_eq in E2 as ->. intros Hr. simplify_option_eq. auto. }
    destruct (String.eqb t "external-out") eqn:E3; [|discriminate].
    intros Hr. simplify_option_eq.
  - intros (-> & -> & -> & ->). reflexivity.
Qed.

Lemma read_info_normalized (io : gmap string Value) s d f :
  read_info io = Some (ExternalIn s d f) ->
  read_info (<["importFee" := OBigInt 0]> (<["src" := OUndefined]> io))
    = Some (ExternalIn None d 0%Z).
Proof.
  rewrite !read_info_external_in. intros (Ht & _ & Hd & _).
  rewrite get_field_insert_eq.
  rewrite !(get_field_insert_ne _ "importFee") by done.
  rewrite get_field_insert_eq.
  rewrite !(get_field_insert_ne _ "src") by done.
  auto.
Qed.

Lemma read_message_mono (h h' : gmap loc (gmap string Value)) (l : loc) (m : Message) :
  h ⊆ h' -> read_message h l = Some m -> read_message h' l = Some m.
Proof.
  intros Hsub. unfold read_message.
  destruct (h !! l) as [o|] eqn:Ho; [|discriminate].
  rewrite (lookup_weaken _ _ _ _ Ho Hsub). simpl.
  destruct (get_field o "info") as [| | | | | | | | | | |li]; try discriminate.
  destruct (h !! li) as [io|] eqn:Hio; [|discriminate].
  now rewrite (lookup_weaken _ _ _ _ Hio Hsub).
Qed.

Lemma alloc_fresh (h : gmap loc (gmap string Value)) (o : gmap string Value) :
  h !! (alloc h o).1 = None /\ h ⊆ (alloc h o).2 /\
  (alloc h o).2 !! (alloc h o).1 = Some o.
Proof.
  unfold alloc. simpl.
  assert (Hf : h !! fresh (dom h) = None)
    by (apply not_elem_of_dom, is_fresh).
  repeat split; [exact Hf | now apply insert_subseteq | apply lookup_insert_eq].
Qed.

Section NormalizedHashFacts.
Context `{TonCore}.

Lemma getNormalizedExtMessageHash_external_in (m : Message) s d f :
    info m = ExternalIn s d f ->
    getNormalizedExtMessageHash m =
      Ok (Cell_hash (storeMessage (MkMessage (ExternalIn None d 0%Z) None (body m)) true)).
  Proof. intros Hi. unfold getNormalizedExtMessageHash. now rewrite Hi. Qed.

  (** What a call does on a store in which [l] holds the message [m]. *)
Lemma getNormalizedExtMessageHash_obj_spec (h : gmap loc (gmap string Value))
    (l : loc) (m : Message) :
  read_message h l = Some m ->
  exists h' : gmap loc (gmap string Value),
    getNormalizedExtMessageHash_obj h l = (h', Some (getNormalizedExtMessageHash m)) /\
    h ⊆ h' /\
    (info_type (info m) = "external-in" ->
       exists l', h !! l' = None /\ read_message h' l' = NormalizedMessage m).
Proof.
  intros Hr.
  unfold getNormalizedExtMessageHash_obj. unfold read_message in Hr.
  destruct (h !! l) as [mo|] eqn:Hmo; [|discriminate]. simpl in Hr.
  destruct (get_field mo "info") as [| | | | | | | | | | |li] eqn:Hinfo; try discriminate.
  destruct (h !! li) as [io|] eqn:Hio; [|discriminate]. simpl in Hr.
  destruct (read_info io) as [i|] eqn:Hri; [|discriminate]. simpl in Hr.
  destruct (as_maybe_init (get_field mo "init")) as [ini|] eqn:Hini; [|discriminate].
  simpl in Hr.
  destruct (as_cell (get_field mo "body")) as [b|] eqn:Hb; [|discriminate].
  injection Hr as <-.
  rewrite (read_info_type _ _ Hri).
  unfold getNormalizedExtMessageHash, NormalizedMessage. cbn [info init body].
  destruct i as [ | s d f | ].
  1,3: exists h; cbn; repeat split; try reflexivity; discriminate.
  cbn [info_type String.eqb Ascii.eqb Bool.eqb negb andb].
  destruct (alloc h (<["importFee" := OBigInt 0]> (<["src" := OUndefined]> io)))
    as [l1 h1] eqn:A1.
  pose proof (alloc_fresh h (<["importFee" := OBigInt 0]> (<["src" := OUndefined]> io)))
    as (F1 & S1 & L1).
  rewrite A1 in F1, S1, L1. cbn [fst snd] in F1, S1, L1.
  destruct (alloc h1 (<["info" := ORef l1]> (<["init" := ONull]> mo)))
    as [l2 h2] eqn:A2.
  pose proof (alloc_fresh h1 (<["info" := ORef l1]> (<["init" := ONull]> mo)))
    as (F2 & S2 & L2).
  rewrite A2 in F2, S2, L2. cbn [fst snd] in F2, S2, L2.
  assert (Hnm : read_message h2 l2
                = Some (MkMessage (ExternalIn None d 0%Z) None b)).
  { unfold read_message. rewrite L2. simpl.
    rewrite get_field_insert_eq.
    rewrite (lookup_weaken _ _ _ _ L1 S2). simpl.
    rewrite (read_info_normalized io s d f Hri). simpl.
    rewrite (get_field_insert_ne _ "info" "init") by done.
    rewrite get_field_insert_eq. simpl.
    rewrite (get_field_insert_ne _ "info" "body") by done.
    rewrite (get_field_insert_ne _ "init" "body") by done.
    now rewrite Hb. }
  exists h2. rewrite Hnm. repeat split.
  - now transitivity h1.
  - intros _. exists l2. split; [|exact Hnm].
    eapply lookup_weaken_None; eassumption.
Qed.

(** C1: on an external-in message the function hashes the normalized
    copy of the message: [info.src] cleared, [info.importFee] zero, [init]
    empty, [dest] and [body] as in the original; and the copy is
    serialized with [forceRef = true] before [hash()] is taken.  On the
    object store the two spreads build exactly that copy, as a new
    object. *)
Theorem normalized_hash_of_external_in (m : Message) s d f :
  info m = ExternalIn s d f ->
  exists nm : Message,
    NormalizedMessage m = Some nm /\
    info nm = ExternalIn None d 0%Z /\ init nm = None /\ body nm = body m /\
    getNormalizedExtMessageHash m = Ok (Cell_hash (storeMessage nm true)) /\
    (forall (h : gmap loc (gmap string Value)) (l : loc),
       read_message h l = Some m ->
       exists h' l',
         getNormalizedExtMessageHash_obj h l
           = (h', Some (Ok (Cell_hash (storeMessage nm true)))) /\
         h !! l' = None /\ read_message h' l' = Some nm).
Proof.
  intros Hi.
  exists (MkMessage (ExternalIn None d 0%Z) None (body m)).
  pose proof (getNormalizedExtMessageHash_external_in m s d f Hi) as Hcall.
  assert (Hnm : NormalizedMessage m
                = Some (MkMessage (ExternalIn None d 0%Z) None (body m)))
    by (unfold NormalizedMessage; now rewrite Hi).
  repeat split; try assumption.
  intros h l Hr.
  destruct (getNormalizedExtMessageHash_obj_spec h l m Hr) as (h' & Hobj & _ & Hnew).
  destruct Hnew as (l' & Hfresh & Hread); [now rewrite Hi|].
  exists h', l'. now rewrite Hobj, Hcall, Hread, Hnm.
Qed.

(** C2: on a message that is not external-in the function throws an
      error whose text names the variant met, and a digest is returned only
      for external-in messages (and for every one of them). *)
Theorem normalized_hash_unsupported_type (m : Message) :
    (info_type (info m) <> "external-in" ->
       getNormalizedExtMessageHash m =
         Throw (MkError ("Message must be " +:+ dquote +:+ "external-in" +:+ dquote
                         +:+ ", got " +:+ info_type (info m)))) /\
    ((exists dg, getNormalizedExtMessageHash m = Ok dg) <->
       info_type (info m) = "external-in").
  Proof.
    unfold getNormalizedExtMessageHash.
    destruct (info m); simpl; split; try congruence; try (intros; reflexivity).
    - split; [intros [dg Hd]; discriminate | discriminate].
    - split; [reflexivity | eauto].
    - split; [intros [dg Hd]; discriminate | discriminate].
  Qed.

  (** C3: two external-in messages that differ only in [src], [importFee]
      and [init] get the same digest, and it is 32 bytes long. *)
Theorem normalized_hash_invariant (m1 m2 : Message) :
    same_up_to_src_importFee_init m1 m2 ->
    exists dg : Digest,
      getNormalizedExtMessageHash m1 = Ok dg /\
      getNormalizedExtMessageHash m2 = Ok dg /\
      List.length dg = 32%nat.
  Proof.
    intros (s1 & s2 & d & f1 & f2 & H1 & H2 & Hb).
    rewrite (getNormalizedExtMessageHash_external_in m1 s1 d f1 H1).
    rewrite (getNormalizedExtMessageHash_external_in m2 s2 d f2 H2).
    rewrite Hb. eexists. repeat split. apply Cell_hash_length.
  Qed.

(** C9: the function is a pure function of the message it is given.  On
    a store in which [l] holds the message [m], the call returns what the
    typed function returns on [m], whatever else the store holds; it
    leaves every object of the store as it was, so [l] still holds [m];
    the normalized message is a new object; and a second call gives the
    same result. *)
Theorem normalized_hash_is_pure (h : gmap loc (gmap string Value)) (l : loc)
    (m : Message) :
  read_message h l = Some m ->
  exists h' : gmap loc (gmap string Value),
    getNormalizedExtMessageHash_obj h l = (h', Some (getNormalizedExtMessageHash m)) /\
    h ⊆ h' /\
    read_message h' l = Some m /\
    (info_type (info m) = "external-in" ->
       exists l', h !! l' = None /\ read_message h' l' = NormalizedMessage m) /\
    (getNormalizedExtMessageHash_obj h' l).2 = (getNormalizedExtMessageHash_obj h l).2.
Proof.
  intros Hr.
  destruct (getNormalizedExtMessageHash_obj_spec h l m Hr) as (h' & Hcall & Hsub & Hnew).
  pose proof (read_message_mono h h' l m Hsub Hr) as Hr'.
  destruct (getNormalizedExtMessageHash_obj_spec h' l m Hr') as (h'' & Hcall' & _).
  exists h'. rewrite Hcall, Hcall'. auto.
Qed.

End NormalizedHashFacts.


(** ** The scan *)

Lemma fetch_count_app (t1 t2 : list Event) :
  fetch_count (t1 ++ t2) = (fetch_count t1 + fetch_count t2)%nat.
Proof. unfold fetch_count, fetches. now rewrite List.filter_app, length_app. Qed.

Lemma error_count_app (t1 t2 : list Event) :
  error_count (t1 ++ t2) = (error_count t1 + error_count t2)%nat.
Proof. unfold error_count. now rewrite List.filter_app, length_app. Qed.

Lemma hashed_app (t1 t2 : list Event) : hashed (t1 ++ t2) = hashed t1 ++ hashed t2.
Proof. apply omap_app. Qed.

Lemma indices_app (t1 t2 : list Event) : indices (t1 ++ t2) = indices t1 ++ indices t2.
Proof. apply omap_app. Qed.

Lemma external_in_of_Some (o : option Message) (m : Message) (d : Address) :
  external_in_of o = Some (m, d) ->
  o = Some m /\ exists s f, info m = ExternalIn s d f.
Proof.
  destruct o as [msg|]; simpl; [|discriminate].
  destruct (info msg) eqn:Hi; try discriminate.
  intros [= <- <-]. eauto.
Qed.

Section ScanFacts.
Context `{TonCore}.

(** The report prints and does nothing else. *)
Lemma report_found_spec (i n : nat) (tx : Transaction) (d : Address) :
  exists t,
    report_found i n tx d = (t, Ok tt) /\
    indices t = [] /\ hashed t = [] /\
    fetch_count t = 0%nat /\ error_count t = 0%nat /\
    In (position_line (i + 1) n) t.
Proof.
  unfold report_found.
  destruct (outMessages tx) as [|[[] ? ?] ?]; cbn;
    eexists; (split; [reflexivity|]); cbn; intuition.
Qed.

Lemma search_cons c h n i tx rest :
  search c h n i (tx :: rest) = 
      (emit (EvIndex i) ;;
      when (verbose c)
        (console_log
           [AStr (Cat (Lit "[")
                 (Cat (OfNum (Num_of_nat (i + 1)))
                 (Cat (Lit "/")
                 (Cat (OfNum (Num_of_nat n))
                 (Cat (Lit "] LT: ")
                 (Cat (OfBigInt (lt tx))
                 (Cat (Lit ", Time: ") (OfDate (now tx * 1000)))))))))]) ;;
      match external_in_of (inMessage tx) with
      | None =>
          when (verbose c)
            (console_log [AStr (Lit "      Skipped (not external-in)")]) ;;
          search c h n (S i) rest
      | Some (inMsg, d) =>
          txHash <- callHash inMsg ;;
          if Buffer_equals txHash h then
            report_found i n tx d ;;
            ret (Returned true)
          else
            when (verbose c) (console_log [AStr (Lit "      No match")]) ;;
            search c h n (S i) rest
      end).
Proof. reflexivity. Qed.

Lemma search_spec (c : Config) (h : Digest) (n : nat) (rest : list Transaction) :
  forall i : nat, exists t,
    search c h n i rest =
      (t, Ok (match first_match h rest with
              | Some _ => Returned true
              | None => Completed
              end)) /\
    indices t = seq i (examined h rest) /\
    hashed t = candidates (take (examined h rest) rest) /\
    fetch_count t = 0%nat /\ error_count t = 0%nat /\
    (forall k, first_match h rest = Some k -> In (position_line (i + k + 1) n) t).
Proof.
  induction rest as [|tx rest IH]; intros i.
  - exists []. cbn. intuition discriminate.
  - destruct (IH (S i)) as (t & Hs & Hi & Hh & Hf & He & Hp).
    rewrite search_cons.
    unfold examined, candidates, indices, hashed, fetch_count, fetches, error_count in *.
    cbn [first_match]. unfold matchesb.
    destruct (external_in_of (inMessage tx)) as [[m d]|] eqn:E.
    + destruct (external_in_of_Some _ _ _ E) as (_ & s & f & Hm).
      unfold callHash.
      rewrite (getNormalizedExtMessageHash_external_in m s d f Hm).
      unfold bind, emit, call, when, console_log, ret. rewrite Hs.
      destruct (Buffer_equals _ h) eqn:Eb.
      * destruct (report_found_spec i n tx d)
          as (tr & -> & Hri & Hrh & Hrf & Hre & Hrp).
        unfold indices, hashed, fetch_count, fetches, error_count in *.
        destruct (verbose c); cbn; (eexists; split; [reflexivity|]);
          cbn; rewrite ?app_nil_r, E, Hri, Hrh, Hrf, Hre; cbn;
          (repeat split; try reflexivity);
          intros k [= <-]; rewrite Nat.add_0_r; auto 6 using in_cons.
      * destruct (first_match h rest) as [k0|] eqn:Ef;
        destruct (verbose c); cbn; (eexists; split; [reflexivity|]);
          cbn; rewrite ?E, Hi, Hh, Hf, He; cbn;
          (repeat split; try reflexivity); try discriminate;
          intros k [= <-];
          replace (i + S k0 + 1)%nat with (S i + k0 + 1)%nat by lia;
          auto 6 using in_cons.
    + unfold bind, emit, call, when, console_log, ret. rewrite Hs.
      destruct (first_match h rest) as [k0|] eqn:Ef;
        destruct (verbose c); cbn; (eexists; split; [reflexivity|]);
          cbn; rewrite ?E, Hi, Hh, Hf, He; cbn;
          (repeat split; try reflexivity); try discriminate;
          intros k [= <-];
          replace (i + S k0 + 1)%nat with (S i + k0 + 1)%nat by lia;
          auto 6 using in_cons.
Qed.
End ScanFacts.

(** ** The verifier *)

Section VerifierFacts.
Context `{TonCore} `{TonClient}.

Lemma verifyBoc_try_spec (c : Config) : verifyBoc_try_post c.
Proof.
  unfold verifyBoc_try_post, verifyBoc_try, before_fetch, fetch_count, fetches.
  unfold callHash, bind, emit, call, when, console_log, ret, throw.
  destruct (Cell_fromBase64 (boc c)) as [cell|e].
  2:{ destruct (verbose c); cbn; eexists; (split; [reflexivity|]);
      cbn; intuition congruence. }
  destruct (loadMessage cell) as [msg|e].
  2:{ destruct (verbose c); cbn; eexists; (split; [reflexivity|]);
      cbn; intuition congruence. }
  destruct (info msg) as [| s d f |] eqn:Hi.
  1,3: destruct (verbose c); cbn; eexists; (split; [reflexivity|]);
      cbn; intuition congruence.
  rewrite (getNormalizedExtMessageHash_external_in msg _ _ _ Hi).
  fold (endpoint_of c). fold (target_hash d (body msg)).
  destruct (getTransactions _ _ _ _ _) as [txs|e].
  2:{ destruct (verbose c), (truthy (apiKey c)); cbn; eexists;
      (split; [reflexivity|]); cbn; intuition congruence. }
  destruct (List.length txs =? 0)%nat eqn:El.
  - apply Nat.eqb_eq, length_zero_iff_nil in El. subst txs.
    destruct (verbose c), (truthy (apiKey c)); cbn; eexists;
      (split; [reflexivity|]); cbn; intuition (congruence || auto 20).
  - destruct (search_spec c (target_hash d (body msg)) (List.length txs) txs 0%nat)
      as (ts & -> & Hsi & Hsh & Hsf & Hse & Hsp).
    assert (Hne : txs <> []) by (intros ->; discriminate).
    unfold indices, hashed, fetch_count, fetches, error_count in *.
    apply length_zero_iff_nil in Hsf.
    destruct (first_match (target_hash d (body msg)) txs) as [k0|] eqn:Ef;
      destruct (verbose c), (truthy (apiKey c)); cbn; eexists;
      (split; [reflexivity|]); cbn;
      rewrite ?List.filter_app, ?length_app, ?omap_app, ?Hsi, ?Hsh, ?Hsf, ?Hse;
      cbn; rewrite ?app_nil_r;
      (repeat split; try reflexivity; try easy);
      try (repeat ((left; reflexivity) || right); fail);
      intros k [= <-]; repeat right;
      first [apply Hsp | apply in_or_app; left; apply Hsp]; reflexivity.
Qed.

End VerifierFacts.

Lemma external_in_of_None (o : option Message) :
  external_in_of o = None <->
  o = None \/ exists m, o = Some m /\ info_type (info m) <> "external-in".
Proof.
  destruct o as [m|]; simpl.
  - destruct (info m) eqn:Hi; simpl; split; intros Hx; try reflexivity;
      try discriminate;
      try (right; exists m; rewrite Hi; simpl; split; [reflexivity | discriminate]).
    destruct Hx as [Hx | (m' & [= <-] & Hx)]; [discriminate|].
    rewrite Hi in Hx. now contradiction Hx.
  - split; [now left | reflexivity].
Qed.

Lemma on_error_counts `{TonCore} `{TonClient} (c : Config) (e : JsError) :
  fetch_count (on_error c e) = 0%nat /\ hashed (on_error c e) = [] /\
  indices (on_error c e) = [] /\
  forall ep k, ~ In (EvNewClient ep k) (on_error c e).
Proof.
  unfold on_error. destruct (verbose c); cbn; intuition congruence.
Qed.

Section Claims.
Context `{TonCore} `{TonClient}.

Lemma first_match_app (h : Digest) (pre : list Transaction) (tx : Transaction)
    (post : list Transaction) :
  Forall (fun t => matchesb h t = false) pre ->
  matchesb h tx = true ->
  first_match h (pre ++ tx :: post) = Some (List.length pre).
Proof.
  induction 1 as [|t pre Ht _ IH]; intros Hm; simpl.
  - now rewrite Hm.
  - rewrite Ht, (IH Hm). reflexivity.
Qed.

Lemma candidates_app (l1 l2 : list Transaction) :
  candidates (l1 ++ l2) = candidates l1 ++ candidates l2.
Proof. apply omap_app. Qed.

Lemma candidates_external_in (txs : list Transaction) :
  Forall is_external_in (candidates txs).
Proof.
  induction txs as [|tx txs IH]; [constructor|].
  unfold candidates in *. cbn.
  destruct (external_in_of (inMessage tx)) as [[m d]|] eqn:E; cbn; [|exact IH].
  constructor; [|exact IH].
  destruct (external_in_of_Some _ _ _ E) as (_ & s & f & Hm).
  unfold is_external_in. now rewrite Hm.
Qed.

(** A run of the [try] block writes nothing to [console.error] and asks
    the network at most once. *)
Lemma verifyBoc_try_quiet (c : Config) :
  error_count (fst (verifyBoc_try c)) = 0%nat /\
  (fetch_count (fst (verifyBoc_try c)) <= 1)%nat.
Proof.
  pose proof (verifyBoc_try_spec c) as P.
  unfold verifyBoc_try_post, before_fetch in P.
  destruct (Cell_fromBase64 (boc c)) as [cell|e].
  2:{ destruct P as (t & -> & Hf & He & _). cbn [fst]. lia. }
  destruct (loadMessage cell) as [msg|e].
  2:{ destruct P as (t & -> & Hf & He & _). cbn [fst]. lia. }
  destruct (info msg) as [| s d f |].
  1,3: destruct P as (t & -> & Hf & He & _); cbn [fst]; lia.
  destruct (getTransactions _ _ _ _ _) as [txs|e];
    destruct P as (t & -> & Hf & He & _); cbn [fst];
    unfold fetch_count; rewrite Hf; cbn [List.length]; lia.
Qed.

(** C4: when the transactions before some position do not match and the
    one at that position does, the verifier reads the candidates in list
    order up to that position, hashes exactly their external-in inbound
    messages, reports that position (counted from 1) and returns [true]:
    the first match by list position wins.  With nothing after the match
    this is the list of length N whose N-th entry alone matches: all N are
    read and the position reported is N of N. *)
Theorem verifyBoc_first_match_wins (c : Config) (cell : Cell) (msg : Message)
    s d f (target : Digest) (pre : list Transaction) (tx : Transaction)
    (post : list Transaction) :
  Cell_fromBase64 (boc c) = Ok cell ->
  loadMessage cell = Ok msg ->
  info msg = ExternalIn s d f ->
  getNormalizedExtMessageHash msg = Ok target ->
  getTransactions (endpoint_of c) (apiKey c) d (limit c) true
    = Ok (pre ++ tx :: post) ->
  Forall (fun t => matchesb target t = false) pre ->
  matchesb target tx = true ->
  exists t : list Event,
    verifyBoc c = (t, true) /\
    indices t = seq 0 (List.length pre + 1) /\
    hashed t = msg :: candidates (pre ++ [tx]) /\
    In (position_line (List.length pre + 1) (List.length (pre ++ tx :: post))) t.
Proof.
  intros Hb Hl Hi Ht Hg Hpre Hm.
  rewrite (getNormalizedExtMessageHash_external_in msg s d f Hi) in Ht.
  injection Ht as <-.
  pose proof (verifyBoc_try_spec c) as P.
  unfold verifyBoc_try_post in P. rewrite Hb, Hl, Hi, Hg in P. cbn zeta in P.
  fold (target_hash d (body msg)) in Hpre, Hm.
  pose proof (first_match_app _ pre tx post Hpre Hm) as Hfm.
  unfold examined in P. rewrite Hfm in P.
  destruct P as (t & Ht & _ & _ & Hh & Hx & _ & Hp & _).
  exists t. unfold verifyBoc. rewrite Ht.
  repeat split; [rewrite Hx; f_equal; lia | | now apply Hp].
  rewrite Hh. f_equal. f_equal.
  replace (pre ++ tx :: post) with ((pre ++ [tx]) ++ post)
    by now rewrite <- app_assoc.
  rewrite take_app_length'; [reflexivity|].
  rewrite length_app. simpl. lia.
Qed.

(** C5: in the search loop a transaction without inbound message, or
    whose inbound message is not external-in, is passed over: the loop goes
    on with the next index, no hash is computed for it and nothing is
    thrown.  On every list the loop ends without an error, and the
    messages it hashes are external-in inbound messages of the list, in
    order. *)
Theorem search_skips_non_external_in (c : Config) (h : Digest) (n : nat) :
  (forall (i : nat) (tx : Transaction) (rest : list Transaction),
     (inMessage tx = None \/
      exists m, inMessage tx = Some m /\ info_type (info m) <> "external-in") ->
     snd (search c h n i (tx :: rest)) = snd (search c h n (S i) rest) /\
     hashed (fst (search c h n i (tx :: rest)))
       = hashed (fst (search c h n (S i) rest)) /\
     indices (fst (search c h n i (tx :: rest)))
       = i :: indices (fst (search c h n (S i) rest))) /\
  (forall (i : nat) (txs : list Transaction),
     exists t ex,
       search c h n i txs = (t, Ok ex) /\
       error_count t = 0%nat /\
       hashed t `prefix_of` candidates txs /\
       Forall is_external_in (hashed t)).
Proof.
  split.
  - intros i tx rest Hskip. apply external_in_of_None in Hskip.
    rewrite search_cons, Hskip.
    unfold bind, emit, when, console_log, ret.
    destruct (search c h n (S i) rest) as [t [ex|e]];
      destruct (verbose c); cbn; repeat split; reflexivity.
  - intros i txs.
    destruct (search_spec c h n txs i) as (t & Hs & _ & Hh & _ & He & _).
    exists t. eexists. split; [exact Hs|]. split; [exact He|].
    rewrite Hh. split.
    + exists (candidates (drop (examined h txs) txs)).
      now rewrite <- candidates_app, take_drop.
    + apply candidates_external_in.
Qed.

(** C6: when the fetch returns no transaction the run ends in [false]
    by the early [return], not through the [catch]: nothing is written to
    [console.error], no candidate is read, and the last line printed says
    that no transactions were found. *)
Theorem verifyBoc_empty_fetch (c : Config) (cell : Cell) (msg : Message) s d f :
  Cell_fromBase64 (boc c) = Ok cell ->
  loadMessage cell = Ok msg ->
  info msg = ExternalIn s d f ->
  getTransactions (endpoint_of c) (apiKey c) d (limit c) true = Ok [] ->
  exists t : list Event,
    verifyBoc_try c = (t, Ok false) /\
    verifyBoc c = (t, false) /\
    error_count t = 0%nat /\
    indices t = [] /\
    last t = Some no_transactions_line.
Proof.
  intros Hb Hl Hi Hg.
  pose proof (verifyBoc_try_spec c) as P.
  unfold verifyBoc_try_post in P. rewrite Hb, Hl, Hi, Hg in P. cbn zeta in P.
  destruct P as (t & Ht & _ & He & _ & Hx & _ & _ & Hlast).
  exists t. unfold verifyBoc. rewrite Ht.
  repeat split; [exact He | exact Hx | now apply Hlast].
Qed.

(** C7: a run asks the network at most once, and not at all when the
    container cannot be decoded or the decoded message is not
    external-in. *)
Theorem verifyBoc_fetches_at_most_once (c : Config) :
  (fetch_count (fst (verifyBoc c)) <= 1)%nat /\
  (fetches (fst (verifyBoc c)) = [] \/
   exists d, fetches (fst (verifyBoc c)) =
               [EvGetTransactions (endpoint_of c) (apiKey c) d (limit c) true]) /\
  (forall e, Cell_fromBase64 (boc c) = Throw e ->
     fetch_count (fst (verifyBoc c)) = 0%nat) /\
  (forall cell e, Cell_fromBase64 (boc c) = Ok cell ->
     loadMessage cell = Throw e ->
     fetch_count (fst (verifyBoc c)) = 0%nat) /\
  (forall cell msg, Cell_fromBase64 (boc c) = Ok cell ->
     loadMessage cell = Ok msg ->
     info_type (info msg) <> "external-in" ->
     fetch_count (fst (verifyBoc c)) = 0%nat).
Proof.
  assert (Hbefore : forall t e, verifyBoc_try c = (t, Throw e) -> before_fetch t ->
                    fetch_count (fst (verifyBoc c)) = 0%nat).
  { intros t e Ht (Hf & _). unfold verifyBoc. rewrite Ht. cbn [fst].
    rewrite fetch_count_app, Hf.
    now destruct (on_error_counts c e) as (-> & _). }
  assert (Herr : forall t e, fetches (t ++ on_error c e) = fetches t).
  { intros t e. unfold fetches. rewrite List.filter_app.
    destruct (on_error_counts c e) as (Hz & _).
    apply length_zero_iff_nil in Hz. unfold fetches in Hz.
    now rewrite Hz, app_nil_r. }
  pose proof (verifyBoc_try_spec c) as P. unfold verifyBoc_try_post in P.
  split; [|split; [|split; [|split]]].
  2:{ unfold verifyBoc, before_fetch, fetch_count in *.
      destruct (Cell_fromBase64 (boc c)) as [cell|e].
      2:{ destruct P as (t & -> & Hf & _). cbn [fst]. rewrite Herr.
          left. now apply length_zero_iff_nil. }
      destruct (loadMessage cell) as [msg|e].
      2:{ destruct P as (t & -> & Hf & _). cbn [fst]. rewrite Herr.
          left. now apply length_zero_iff_nil. }
      destruct (info msg) as [| s d f |].
      1,3: destruct P as (t & -> & Hf & _); cbn [fst]; rewrite Herr;
          left; now apply length_zero_iff_nil.
      destruct (getTransactions _ _ _ _ _) as [txs|e];
        destruct P as (t & -> & Hf & _); cbn [fst]; rewrite ?Herr;
        right; now exists d. }
  - pose proof (verifyBoc_try_quiet c) as (_ & Hq).
    unfold verifyBoc. destruct (verifyBoc_try c) as [t [b|e]]; cbn [fst] in *; [exact Hq|].
    rewrite fetch_count_app.
    destruct (on_error_counts c e) as (-> & _). lia.
  - intros e He. rewrite He in P. destruct P as (t & Ht & Hq). eauto.
  - intros cell e Hc He. rewrite Hc, He in P. destruct P as (t & Ht & Hq). eauto.
  - intros cell msg Hc Hm Hty. rewrite Hc, Hm in P.
    destruct (info msg); try (now contradiction Hty);
      destruct P as (t & Ht & Hq); eauto.
Qed.

End Claims.

(** ** What the caller gets *)

Lemma js_get_ENDPOINTS_unknown (k : string) :
  ~ known_network k ->
  js_get ENDPOINTS k =
    if bool_decide (k ∈ Object_prototype_keys) then VInherited k else VUndefined.
Proof.
  intros Hk. unfold js_get, ENDPOINTS, known_network in *.
  rewrite lookup_insert_ne by (intros <-; tauto).
  rewrite lookup_insert_ne by (intros <-; tauto).
  now rewrite lookup_empty.
Qed.

Section CallerFacts.
Context `{TonCore} `{TonClient} `{JsBuiltins}.

(** C8, as the code has it: the caller of [verifyBoc] gets a boolean.
    It is [true] exactly when the scan found a match.  It is [false] when
    no transaction matched and also when anything was thrown (by the
    decoder, by the test of the message type, by the fetch); an error
    differs from a plain miss only on the console, where its text goes to
    [console.error].  [main] turns [true] into exit code 0 and [false]
    into 1. *)
Theorem verifyBoc_result_is_boolean (c : Config) :
  (forall t e, verifyBoc_try c = (t, Throw e) ->
     verifyBoc c = (t ++ on_error c e, false) /\
     error_count t = 0%nat /\
     In (EvError [AStr (Lit (nl +:+ "❌ Error:")); AStr (Lit (message e))])
        (fst (verifyBoc c))) /\
  (forall t b, verifyBoc_try c = (t, Ok b) ->
     verifyBoc c = (t, b) /\ error_count t = 0%nat) /\
  (forall cell msg s d f txs,
     Cell_fromBase64 (boc c) = Ok cell ->
     loadMessage cell = Ok msg ->
     info msg = ExternalIn s d f ->
     getTransactions (endpoint_of c) (apiKey c) d (limit c) true = Ok txs ->
     snd (verifyBoc c) =
       match first_match (target_hash d (body msg)) txs with
       | Some _ => true
       | None => false
       end) /\
  (forall args, parseArgs args = Parsed c ->
     snd (main args) = if snd (verifyBoc c) then 0%Z else 1%Z).
Proof.
  pose proof (verifyBoc_try_quiet c) as (Hq & _).
  split; [|split; [|split]].
  - intros t e Ht. unfold verifyBoc. rewrite Ht in *. cbn [fst] in *.
    repeat split; [exact Hq|]. apply in_or_app. right. unfold on_error. now left.
  - intros t b Ht. unfold verifyBoc. rewrite Ht in *. now split.
  - intros cell msg s d f txs Hb Hl Hi Hg.
    pose proof (verifyBoc_try_spec c) as P.
    unfold verifyBoc_try_post in P. rewrite Hb, Hl, Hi, Hg in P. cbn zeta in P.
    destruct P as (t & Ht & _). unfold verifyBoc. now rewrite Ht.
  - intros args Hp. unfold main. rewrite Hp.
    now destruct (verifyBoc c) as [t []].
Qed.

(** C10, as the code has it: [parseArgs] stores whatever follows
    [--network] unchecked.  For a value other than [mainnet] and [testnet]
    the lookup in [ENDPOINTS] never gives a URL: it gives [undefined],
    except for the names [ENDPOINTS] inherits from [Object.prototype]
    (such as [constructor]), for which it gives the inherited member.  The
    verifier does not reject either: once the message is decoded it builds
    the client with that endpoint. *)
Theorem unchecked_network_reaches_client :
  (forall b v : string,
     b <> "--help" -> b <> "-h" ->
     parseArgs [b; "--network"; v] =
       Parsed {| boc := b; network := Some v; apiKey := None;
                 limit := Num 10; verbose := false |}) /\
  (forall c : Config,
     ~ known_network (property_key (network c)) ->
     (forall url, endpoint_of c <> VString url) /\
     (property_key (network c) ∉ Object_prototype_keys ->
        endpoint_of c = VUndefined) /\
     (property_key (network c) ∈ Object_prototype_keys ->
        endpoint_of c = VInherited (property_key (network c))) /\
     (forall cell msg,
        Cell_fromBase64 (boc c) = Ok cell ->
        loadMessage cell = Ok msg ->
        info_type (info msg) = "external-in" ->
        In (EvNewClient (endpoint_of c) (apiKey c)) (fst (verifyBoc c)))).
Proof.
  split.
  - intros b v Hb1 Hb2. unfold parseArgs.
    apply String.eqb_neq in Hb1, Hb2. rewrite Hb1, Hb2. reflexivity.
  - intros c Hk. unfold endpoint_of.
    rewrite (js_get_ENDPOINTS_unknown _ Hk).
    repeat split.
    + intros url. now case_bool_decide.
    + intros Hn. now rewrite bool_decide_eq_false_2.
    + intros Hn. now rewrite bool_decide_eq_true_2.
    + intros cell msg Hb Hl Hi.
      apply info_type_external_in in Hi as (s & d & f & Hi).
      pose proof (verifyBoc_try_spec c) as P.
      unfold verifyBoc_try_post in P. rewrite Hb, Hl, Hi in P.
      unfold endpoint_of in P. rewrite (js_get_ENDPOINTS_unknown _ Hk) in P.
      unfold verifyBoc.
      destruct (getTransactions _ _ _ _ _) as [txs|e].
      * destruct P as (t & -> & _ & _ & _ & _ & Hin & _). exact Hin.
      * destruct P as (t & -> & _ & _ & _ & _ & Hin). cbn [fst].
        apply in_or_app. now left.
Qed.

End CallerFacts.

(** * Further properties *)

(** ** The parser *)

(** Induction along the way [parseOptions] walks its arguments: one or two
    at a time. *)
Lemma parseOptions_walk (P : list string -> Prop) :
  P [] ->
  (forall a, P [a]) ->
  (forall a v rest, P rest -> P (v :: rest) -> P (a :: v :: rest)) ->
  forall args, P args.
Proof.
  intros Hnil Hone Hstep args.
  assert (Hboth : P args /\ forall a, P (a :: args)).
  { induction args as [|v rest [IH1 IH2]]; split; auto. }
  exact (proj1 Hboth).
Qed.

Section ParserFacts.
Context `{JsBuiltins}.

Ltac flag_cases a :=
  destruct (String.eqb a "--network") eqn:?E;
  [|destruct (String.eqb a "--api-key") eqn:?E;
    [|destruct (String.eqb a "--limit") eqn:?E;
      [|destruct (String.eqb a "--verbose") eqn:?E]]].

Lemma parseOptions_cons (a : string) (rest : list string) (c : Config) :
  parseOptions (a :: rest) c =
    if String.eqb a "--network" then
      match rest with
      | v :: rest' => parseOptions rest' (set_network (Some v) c)
      | [] => set_network None c
      end
    else if String.eqb a "--api-key" then
      match rest with
      | v :: rest' => parseOptions rest' (set_apiKey (Some v) c)
      | [] => set_apiKey None c
      end
    else if String.eqb a "--limit" then
      match rest with
      | v :: rest' => parseOptions rest' (set_limit (parseInt10 (Some v)) c)
      | [] => set_limit (parseInt10 None) c
      end
    else if String.eqb a "--verbose" then parseOptions rest (set_verbose true c)
    else parseOptions rest c.
Proof. reflexivity. Qed.

Lemma parseOptions_boc (args : list string) :
  forall c, boc (parseOptions args c) = boc c.
Proof.
  induction args as [|a|a v rest IH1 IH2] using parseOptions_walk; intros c.
  - reflexivity.
  - cbn [parseOptions]. flag_cases a; reflexivity.
  - rewrite parseOptions_cons. flag_cases a; rewrite ?IH1, ?IH2; reflexivity.
Qed.

(** X1: whatever options follow, the configuration carries the first
    argument as the BOC. *)
Theorem parseArgs_keeps_boc (a0 : string) (rest : list string) (c : Config) :
  parseArgs (a0 :: rest) = Parsed c -> boc c = a0.
Proof.
  unfold parseArgs. destruct (_ || _); [discriminate|].
  intros [= <-]. apply parseOptions_boc.
Qed.

Lemma parseOptions_absent (args : list string) :
  forall c,
    ("--network" ∉ args -> network (parseOptions args c) = network c) /\
    ("--api-key" ∉ args -> apiKey (parseOptions args c) = apiKey c) /\
    ("--limit" ∉ args -> limit (parseOptions args c) = limit c) /\
    ("--verbose" ∉ args -> verbose (parseOptions args c) = verbose c).
Proof.
  induction args as [|a|a v rest IH1 IH2] using parseOptions_walk; intros c.
  - repeat split.
  - rewrite parseOptions_cons.
    flag_cases a; repeat split; intros Hn; try reflexivity;
      apply not_elem_of_cons in Hn as [Ha _];
      match goal with E : String.eqb _ _ = true |- _ =>
        apply String.eqb_eq in E; congruence end.
  - rewrite parseOptions_cons.
    flag_cases a; repeat split; intros Hn;
      apply not_elem_of_cons in Hn as [Ha Hv];
      pose proof Hv as Hr; apply not_elem_of_cons in Hr as [_ Hr];
      try (match goal with E : String.eqb a _ = true |- _ =>
             apply String.eqb_eq in E; congruence end);
      match goal with
      | |- context [parseOptions rest ?c'] =>
          first [ rewrite (proj1 (IH1 c') Hr)
                | rewrite (proj1 (proj2 (IH1 c')) Hr)
                | rewrite (proj1 (proj2 (proj2 (IH1 c'))) Hr)
                | rewrite (proj2 (proj2 (proj2 (IH1 c'))) Hr) ]
      | |- context [parseOptions (v :: rest) ?c'] =>
          first [ rewrite (proj1 (IH2 c') Hv)
                | rewrite (proj1 (proj2 (IH2 c')) Hv)
                | rewrite (proj1 (proj2 (proj2 (IH2 c'))) Hv)
                | rewrite (proj2 (proj2 (proj2 (IH2 c'))) Hv) ]
      end; reflexivity.
Qed.

(** X2: an option that does not occur among the arguments keeps its
    default: network [mainnet], no API key, limit 10, not verbose. *)
Theorem parseArgs_defaults (a0 : string) (rest : list string) (c : Config) :
  parseArgs (a0 :: rest) = Parsed c ->
  ("--network" ∉ rest -> network c = Some "mainnet") /\
  ("--api-key" ∉ rest -> apiKey c = None) /\
  ("--limit" ∉ rest -> limit c = Num 10) /\
  ("--verbose" ∉ rest -> verbose c = false).
Proof.
  unfold parseArgs. destruct (_ || _); [discriminate|].
  intros [= <-].
  destruct (parseOptions_absent rest
              {| boc := a0; network := Some "mainnet"; apiKey := None;
                 limit := Num 10; verbose := false |}) as (Hn & Hk & Hl & Hv).
  repeat split; intros Habs; [rewrite Hn | rewrite Hk | rewrite Hl | rewrite Hv];
    auto.
Qed.

(** [--verbose] is never switched off again. *)
Lemma parseOptions_verbose_kept (args : list string) :
  forall c, verbose c = true -> verbose (parseOptions args c) = true.
Proof.
  induction args as [|a|a v rest IH1 IH2] using parseOptions_walk; intros c Hc.
  - exact Hc.
  - rewrite parseOptions_cons. flag_cases a; try exact Hc; reflexivity.
  - rewrite parseOptions_cons.
    flag_cases a; first [apply IH1 | apply IH2]; try exact Hc; reflexivity.
Qed.

End ParserFacts.

(** ** More on the scan *)

Section MoreScanFacts.
Context `{TonCore}.

Lemma matchesb_true (h : Digest) (tx : Transaction) :
  matchesb h tx = true <->
  exists m, inMessage tx = Some m /\ getNormalizedExtMessageHash m = Ok h.
Proof.
  unfold matchesb. split.
  - destruct (external_in_of (inMessage tx)) as [[m d]|] eqn:E; [|discriminate].
    destruct (external_in_of_Some _ _ _ E) as (Hin & s & f & Hm).
    destruct (getNormalizedExtMessageHash m) as [dg|e] eqn:Hg; [|discriminate].
    intros Hb. apply Buffer_equals_eq in Hb. subst dg. eauto.
  - intros (m & Hin & Hg). rewrite Hin.
    assert (Hty : info_type (info m) = "external-in").
    { unfold getNormalizedExtMessageHash in Hg.
      destruct (info m); try discriminate. reflexivity. }
    apply info_type_external_in in Hty as (s & d & f & Hi).
    unfold external_in_of. rewrite Hi, Hg. now apply Buffer_equals_eq.
Qed.

Lemma first_match_None (h : Digest) (txs : list Transaction) :
  first_match h txs = None <-> Forall (fun t => matchesb h t = false) txs.
Proof.
  induction txs as [|tx txs IH]; simpl.
  - split; [constructor | reflexivity].
  - destruct (matchesb h tx) eqn:Em.
    + split; [discriminate|]. intros Hf. inversion Hf. congruence.
    + destruct (first_match h txs) as [k|]; simpl.
      * split; [discriminate|]. intros Hf. inversion Hf as [|? ? _ Hr].
        apply IH in Hr. discriminate.
      * split; [|reflexivity]. intros _. constructor; [exact Em|]. now apply IH.
Qed.

Lemma first_match_Some (h : Digest) (txs : list Transaction) (k : nat) :
  first_match h txs = Some k ->
  exists tx, txs !! k = Some tx /\ matchesb h tx = true /\
    forall j tx', (j < k)%nat -> txs !! j = Some tx' -> matchesb h tx' = false.
Proof.
  revert k. induction txs as [|tx txs IH]; intros k; simpl; [discriminate|].
  destruct (matchesb h tx) eqn:Em.
  - intros [= <-]. exists tx. repeat split; [exact Em|]. intros j tx' Hj. lia.
  - destruct (first_match h txs) as [k'|]; simpl; [|discriminate].
    intros [= <-]. destruct (IH k' eq_refl) as (tx0 & Hk & Hm & Hbefore).
    exists tx0. repeat split; [exact Hk | exact Hm |].
    intros [|j] tx' Hj Hl; simpl in Hl.
    + now injection Hl as <-.
    + apply (Hbefore j); [lia | exact Hl].
Qed.

End MoreScanFacts.

(** ** More on the verifier *)

Lemma fetches_app (t1 t2 : list Event) : fetches (t1 ++ t2) = fetches t1 ++ fetches t2.
Proof. unfold fetches. apply List.filter_app. Qed.

Section MoreVerifierFacts.
Context `{TonCore} `{TonClient}.

Lemma on_error_fetches (c : Config) (e : JsError) : fetches (on_error c e) = [].
Proof. unfold on_error. now destruct (verbose c). Qed.

Lemma on_error_error_count (c : Config) (e : JsError) :
  error_count (on_error c e) = if verbose c then 2%nat else 1%nat.
Proof. unfold on_error. now destruct (verbose c). Qed.

(** The line the [catch] block prints for the error [e]. *)
Lemma error_line_printed (c : Config) (t : list Event) (e : JsError) :
  verifyBoc_try c = (t, Throw e) ->
  verifyBoc c = (t ++ on_error c e, false) /\
  In (EvError [AStr (Lit (nl +:+ "❌ Error:")); AStr (Lit (message e))])
     (fst (verifyBoc c)).
Proof.
  intros Ht. unfold verifyBoc. rewrite Ht. split; [reflexivity|].
  cbn [fst]. apply in_or_app. right. unfold on_error. now left.
Qed.

(** X3: when no fetched transaction matches, every one of them is read, in
    order, before the run ends in [false]; nothing is written to
    [console.error]. *)
Theorem verifyBoc_no_match_scans_all (c : Config) (cell : Cell) (msg : Message)
    s d f (target : Digest) (txs : list Transaction) :
  Cell_fromBase64 (boc c) = Ok cell ->
  loadMessage cell = Ok msg ->
  info msg = ExternalIn s d f ->
  getNormalizedExtMessageHash msg = Ok target ->
  getTransactions (endpoint_of c) (apiKey c) d (limit c) true = Ok txs ->
  Forall (fun t => matchesb target t = false) txs ->
  exists t : list Event,
    verifyBoc c = (t, false) /\
    indices t = seq 0 (List.length txs) /\
    hashed t = msg :: candidates txs /\
    error_count t = 0%nat.
Proof.
  intros Hb Hl Hi Ht Hg Hno.
  rewrite (getNormalizedExtMessageHash_external_in msg s d f Hi) in Ht.
  injection Ht as <-. fold (target_hash d (body msg)) in Hno.
  apply first_match_None in Hno.
  pose proof (verifyBoc_try_spec c) as P.
  unfold verifyBoc_try_post in P. rewrite Hb, Hl, Hi, Hg in P. cbn zeta in P.
  unfold examined in P. rewrite Hno in P.
  destruct P as (t & Hrun & _ & He & Hh & Hx & _).
  exists t. unfold verifyBoc. rewrite Hrun.
  rewrite firstn_all in Hh. auto.
Qed.

(** X4: if one of the fetched transactions carries the submitted message,
    whatever was done to its [src], [importFee] and [init] on the way, the
    verifier returns [true]. *)
Theorem verifyBoc_finds_landed_message (c : Config) (cell : Cell) (msg : Message)
    s d f (txs : list Transaction) (tx : Transaction) (m' : Message) :
  Cell_fromBase64 (boc c) = Ok cell ->
  loadMessage cell = Ok msg ->
  info msg = ExternalIn s d f ->
  getTransactions (endpoint_of c) (apiKey c) d (limit c) true = Ok txs ->
  In tx txs ->
  inMessage tx = Some m' ->
  same_up_to_src_importFee_init msg m' ->
  snd (verifyBoc c) = true.
Proof.
  intros Hb Hl Hi Hg Hin Hm' (s1 & s2 & d' & f1 & f2 & H1 & H2 & Hbody).
  rewrite Hi in H1. injection H1 as _ <- _.
  assert (Hmatch : matchesb (target_hash d (body msg)) tx = true).
  { apply matchesb_true. exists m'. split; [exact Hm'|].
    rewrite (getNormalizedExtMessageHash_external_in m' s2 d f2 H2).
    unfold target_hash. now rewrite Hbody. }
  pose proof (verifyBoc_try_spec c) as P.
  unfold verifyBoc_try_post in P. rewrite Hb, Hl, Hi, Hg in P. cbn zeta in P.
  destruct P as (t & Hrun & _). unfold verifyBoc. rewrite Hrun. cbn [snd].
  destruct (first_match (target_hash d (body msg)) txs) as [k|] eqn:Ef;
    [reflexivity|].
  apply first_match_None in Ef. rewrite Forall_forall in Ef.
  apply list_elem_of_In in Hin. rewrite (Ef tx Hin) in Hmatch. discriminate.
Qed.

(** X5: the verifier returns [true] only if the BOC decoded to an
    external-in message, the fetch succeeded, and the fetched list holds,
    at the reported position, a transaction whose inbound message has
    exactly the target hash, with no match before it. *)
Theorem verifyBoc_true_is_a_match (c : Config) :
  snd (verifyBoc c) = true ->
  exists cell msg s d f target txs k tx m,
    Cell_fromBase64 (boc c) = Ok cell /\
    loadMessage cell = Ok msg /\
    info msg = ExternalIn s d f /\
    getNormalizedExtMessageHash msg = Ok target /\
    getTransactions (endpoint_of c) (apiKey c) d (limit c) true = Ok txs /\
    txs !! k = Some tx /\
    inMessage tx = Some m /\
    getNormalizedExtMessageHash m = Ok target /\
    (forall j tx', (j < k)%nat -> txs !! j = Some tx' -> matchesb target tx' = false) /\
    In (position_line (k + 1) (List.length txs)) (fst (verifyBoc c)).
Proof.
  pose proof (verifyBoc_try_spec c) as P. unfold verifyBoc_try_post in P.
  unfold verifyBoc.
  destruct (Cell_fromBase64 (boc c)) as [cell|e].
  2:{ destruct P as (t & -> & _). discriminate. }
  destruct (loadMessage cell) as [msg|e] eqn:Hl.
  2:{ destruct P as (t & -> & _). discriminate. }
  destruct (info msg) as [| s d f |] eqn:Hi.
  1,3: destruct P as (t & -> & _); discriminate.
  destruct (getTransactions _ _ _ _ _) as [txs|e] eqn:Hg.
  2:{ destruct P as (t & -> & _). discriminate. }
  cbn zeta in P. destruct P as (t & -> & _ & _ & _ & _ & _ & Hp & _).
  cbn [fst snd].
  destruct (first_match (target_hash d (body msg)) txs) as [k|] eqn:Ef;
    [intros _ | discriminate].
  destruct (first_match_Some _ _ _ Ef) as (tx & Hk & Hm & Hbefore).
  apply matchesb_true in Hm as (m & Hin & Hhash).
  exists cell, msg, s, d, f, (target_hash d (body msg)), txs, k, tx, m.
  repeat split; try assumption; try reflexivity.
  - apply (getNormalizedExtMessageHash_external_in msg s d f Hi).
  - now apply Hp.
Qed.

(** X6: [console.error] is written exactly when something was thrown: not
    at all on a run that returns, once for an error, twice with
    [--verbose] (the stack trace). *)
Theorem verifyBoc_error_lines (c : Config) :
  error_count (fst (verifyBoc c)) =
    match snd (verifyBoc_try c) with
    | Ok _ => 0%nat
    | Throw _ => if verbose c then 2%nat else 1%nat
    end.
Proof.
  pose proof (verifyBoc_try_quiet c) as (Hq & _).
  unfold verifyBoc. destruct (verifyBoc_try c) as [t [b|e]]; cbn [fst snd] in *.
  - exact Hq.
  - now rewrite error_count_app, Hq, on_error_error_count.
Qed.

(** X7: when the container cannot be decoded the run stops there: the
    library's message is printed, the result is [false], and no hash is
    computed, no client is built, no transaction is read. *)
Theorem verifyBoc_decode_failure (c : Config) (e : JsError) :
  (Cell_fromBase64 (boc c) = Throw e \/
   exists cell, Cell_fromBase64 (boc c) = Ok cell /\ loadMessage cell = Throw e) ->
  snd (verifyBoc c) = false /\
  hashed (fst (verifyBoc c)) = [] /\
  indices (fst (verifyBoc c)) = [] /\
  (forall ep k, ~ In (EvNewClient ep k) (fst (verifyBoc c))) /\
  In (EvError [AStr (Lit (nl +:+ "❌ Error:")); AStr (Lit (message e))])
     (fst (verifyBoc c)).
Proof.
  intros Hfail.
  pose proof (verifyBoc_try_spec c) as P. unfold verifyBoc_try_post in P.
  assert (Hrun : exists t, verifyBoc_try c = (t, Throw e) /\ before_fetch t).
  { destruct Hfail as [Hb | (cell & Hb & Hl)].
    - now rewrite Hb in P.
    - now rewrite Hb, Hl in P. }
  destruct Hrun as (t & Hrun & _ & _ & Hh & Hx & Hnc).
  destruct (error_line_printed c t e Hrun) as (Hv & Hline).
  destruct (on_error_counts c e) as (_ & Heh & Hex & Henc).
  rewrite Hv in *. cbn [fst snd] in *.
  rewrite hashed_app, indices_app, Hh, Hx, Heh, Hex.
  repeat split; try assumption.
  intros ep k Hin. apply in_app_or in Hin as [Hin | Hin].
  - exact (Hnc ep k Hin).
  - exact (Henc ep k Hin).
Qed.

(** X8: when the fetch fails the error is passed on as it is: its message
    is printed, the result is [false], the network was asked once and not
    again, and no transaction is read. *)
Theorem verifyBoc_fetch_failure (c : Config) (cell : Cell) (msg : Message)
    s d f (e : JsError) :
  Cell_fromBase64 (boc c) = Ok cell ->
  loadMessage cell = Ok msg ->
  info msg = ExternalIn s d f ->
  getTransactions (endpoint_of c) (apiKey c) d (limit c) true = Throw e ->
  snd (verifyBoc c) = false /\
  fetch_count (fst (verifyBoc c)) = 1%nat /\
  hashed (fst (verifyBoc c)) = [msg] /\
  indices (fst (verifyBoc c)) = [] /\
  In (EvError [AStr (Lit (nl +:+ "❌ Error:")); AStr (Lit (message e))])
     (fst (verifyBoc c)).
Proof.
  intros Hb Hl Hi Hg.
  pose proof (verifyBoc_try_spec c) as P. unfold verifyBoc_try_post in P.
  rewrite Hb, Hl, Hi, Hg in P.
  destruct P as (t & Hrun & Hf & _ & Hh & Hx & _).
  destruct (error_line_printed c t e Hrun) as (Hv & Hline).
  destruct (on_error_counts c e) as (_ & Heh & Hex & _).
  rewrite Hv in *. cbn [fst snd] in *.
  unfold fetch_count.
  rewrite fetches_app, on_error_fetches, hashed_app, indices_app, Hf, Hh, Hx, Heh, Hex.
  repeat split; assumption.
Qed.

(** X9: the one fetch asks for the transactions of the destination of the
    decoded message, with the configured limit and [archival: true], on
    the client built from [ENDPOINTS[config.network]] and the API key. *)
Theorem verifyBoc_fetch_target (c : Config) (cell : Cell) (msg : Message) s d f :
  Cell_fromBase64 (boc c) = Ok cell ->
  loadMessage cell = Ok msg ->
  info msg = ExternalIn s d f ->
  fetches (fst (verifyBoc c)) =
    [EvGetTransactions (endpoint_of c) (apiKey c) d (limit c) true] /\
  In (EvNewClient (endpoint_of c) (apiKey c)) (fst (verifyBoc c)).
Proof.
  intros Hb Hl Hi.
  pose proof (verifyBoc_try_spec c) as P. unfold verifyBoc_try_post in P.
  rewrite Hb, Hl, Hi in P. unfold verifyBoc.
  destruct (getTransactions _ _ _ _ _) as [txs|e].
  - destruct P as (t & -> & Hf & _ & _ & _ & Hin & _). now split.
  - destruct P as (t & -> & Hf & _ & _ & _ & Hin). cbn [fst].
    rewrite fetches_app, on_error_fetches, Hf. split; [reflexivity|].
    apply in_or_app. now left.
Qed.

End MoreVerifierFacts.

(** ** Verbose output *)

Lemma actions_app (t1 t2 : list Event) : actions (t1 ++ t2) = actions t1 ++ actions t2.
Proof. apply List.filter_app. Qed.

Section VerboseFacts.
Context `{TonCore} `{TonClient}.

Lemma report_found_actions (i n : nat) (tx : Transaction) (d : Address) :
  exists t, report_found i n tx d = (t, Ok tt) /\ actions t = [].
Proof.
  unfold report_found.
  destruct (outMessages tx) as [|[[] ? ?] ?]; cbn;
    eexists; (split; [reflexivity|]); reflexivity.
Qed.

Lemma search_verbose (b : string) (nw k : option string) (l : JsNum) (vb : bool)
    (h : Digest) (n : nat) (rest : list Transaction) :
  forall i,
    snd (search (MkConfig b nw k l vb) h n i rest)
      = snd (search (MkConfig b nw k l false) h n i rest) /\
    actions (fst (search (MkConfig b nw k l vb) h n i rest))
      = actions (fst (search (MkConfig b nw k l false) h n i rest)).
Proof.
  destruct vb; [|now split].
  induction rest as [|tx rest IH]; intros i; [now split|].
  destruct (IH (S i)) as (IHr & IHa).
  rewrite !search_cons. cbn [verbose].
  unfold callHash, bind, emit, call, when, console_log, ret.
  destruct (external_in_of (inMessage tx)) as [[m d]|].
  - destruct (getNormalizedExtMessageHash m) as [dg|e]; [|now split].
    destruct (Buffer_equals dg h).
    + destruct (report_found_actions i n tx d) as (tr & -> & Hr). now split.
    + destruct (search _ h n (S i) rest) as [t1 r1],
               (search _ h n (S i) rest) as [t2 r2].
      cbn in *. subst. split; [reflexivity|].
      unfold actions in *. cbn. now rewrite IHa.
  - destruct (search _ h n (S i) rest) as [t1 r1],
             (search _ h n (S i) rest) as [t2 r2].
    cbn in *. subst. split; [reflexivity|].
    unfold actions in *. cbn. now rewrite IHa.
Qed.

Lemma verifyBoc_verbose (b : string) (nw k : option string) (l : JsNum) (vb : bool) :
  snd (verifyBoc (MkConfig b nw k l vb)) = snd (verifyBoc (MkConfig b nw k l false)) /\
  actions (fst (verifyBoc (MkConfig b nw k l vb)))
    = actions (fst (verifyBoc (MkConfig b nw k l false))).
Proof.
  destruct vb; [|now split].
  unfold verifyBoc, verifyBoc_try, on_error.
  unfold callHash, bind, emit, call, when, console_log, ret, throw.
  cbn [verbose boc network apiKey limit].
  destruct (Cell_fromBase64 b) as [cell|e]; [|now split].
  destruct (loadMessage cell) as [msg|e]; [|now split].
  destruct (info msg) as [| s d f |]; [now split | | now split].
  destruct (getNormalizedExtMessageHash msg) as [target|e]; [|now split].
  destruct (getTransactions _ _ _ _ _) as [txs|e].
  2:{ destruct (truthy k); now split. }
  destruct (List.length txs =? 0)%nat.
  { destruct (truthy k); now split. }
  destruct (search_verbose b nw k l true target (List.length txs) txs 0%nat)
    as (Hr & Ha).
  destruct (search (MkConfig b nw k l true) _ _ _ _) as [t1 r1],
           (search (MkConfig b nw k l false) _ _ _ _) as [t2 r2].
  cbn [fst snd] in Hr, Ha. subst r2.
  destruct r1 as [[bo|]|e]; destruct (truthy k); cbn; (split; [reflexivity|]);
    unfold actions in *; cbn; rewrite ?List.filter_app, Ha; reflexivity.
Qed.

(** X10: [--verbose] changes what is printed and nothing else: the result
    and everything the run does besides printing (decoding, hashing, the
    client, the fetch, the reads of the list) are the same with and
    without it. *)
Theorem verbose_changes_only_console (c : Config) (v : bool) :
  snd (verifyBoc (set_verbose v c)) = snd (verifyBoc c) /\
  actions (fst (verifyBoc (set_verbose v c))) = actions (fst (verifyBoc c)).
Proof.
  destruct c as [b nw k l vb]. unfold set_verbose. cbn [boc network apiKey limit].
  destruct (verifyBoc_verbose b nw k l v) as (-> & ->).
  destruct (verifyBoc_verbose b nw k l vb) as (-> & ->).
  now split.
Qed.

End VerboseFacts.

(** ** Endpoint, normal form and exit code *)


Section EndpointFacts.
Context `{TonCore} `{TonClient}.


(** X12: a message that is already in normal form (no [src], [importFee]
    zero, no [init]) hashes as itself, and normalizing twice is
    normalizing once: the normal form has the hash of the message it
    came from. *)
Theorem normalized_hash_of_normal_form (m : Message) :
  (forall d, info m = ExternalIn None d 0%Z -> init m = None ->
     getNormalizedExtMessageHash m = Ok (Cell_hash (storeMessage m true))) /\
  (forall nm, NormalizedMessage m = Some nm ->
     NormalizedMessage nm = Some nm /\
     getNormalizedExtMessageHash nm = getNormalizedExtMessageHash m).
Proof.
  split.
  - intros d Hi Hn. destruct m as [i ini b]. cbn in *. subst.
    reflexivity.
  - intros nm. unfold NormalizedMessage, getNormalizedExtMessageHash.
    destruct (info m); try discriminate. intros [= <-]. now split.
Qed.

End EndpointFacts.

Section MainFacts.
Context `{TonCore} `{TonClient} `{JsBuiltins}.


End MainFacts.

(** ** The API key on the console *)





Section ApiKeyFacts.
Context `{TonCore} `{TonClient}.





End ApiKeyFacts.

(** ** The report *)

Section ReportFacts.
Context `{TonCore} `{TonClient}.

Lemma report_found_lines (i n : nat) (tx : Transaction) (d : Address) :
  exists t,
    report_found i n tx d = (t, Ok tt) /\
    (forall ev, In ev (report_lines tx d ++ out_lines tx) -> In ev t).
Proof.
  unfold report_found, report_lines, out_lines.
  destruct (outMessages tx) as [|[[] ? ?] ?]; cbn;
    eexists; (split; [reflexivity|]); intros ev Hev; cbn in Hev;
    repeat (destruct Hev as [<- | Hev];
            [repeat ((left; reflexivity) || right) |]);
    contradiction.
Qed.

Lemma search_reports (c : Config) (h : Digest) (n : nat)
    (pre : list Transaction) (tx : Transaction) (post : list Transaction)
    (m : Message) (d : Address) :
  Forall (fun t => matchesb h t = false) pre ->
  matchesb h tx = true ->
  external_in_of (inMessage tx) = Some (m, d) ->
  forall i ev,
    In ev (report_lines tx d ++ out_lines tx) ->
    In ev (fst (search c h n i (pre ++ tx :: post))).
Proof.
  intros Hpre Hm Hext.
  induction Hpre as [|t pre Ht _ IH]; intros i ev Hev.
  - cbn [app]. rewrite search_cons, Hext.
    unfold matchesb in Hm. rewrite Hext in Hm.
    destruct (external_in_of_Some _ _ _ Hext) as (_ & s & f & Hi).
    unfold callHash, bind, emit, call, when, console_log, ret.
    rewrite (getNormalizedExtMessageHash_external_in m s d f Hi) in *.
    rewrite Hm.
    destruct (report_found_lines i n tx d) as (tr & -> & Hin).
    specialize (Hin ev Hev).
    destruct (verbose c); cbn; rewrite ?app_nil_r; auto.
  - cbn [app]. rewrite search_cons.
    specialize (IH (S i) ev Hev).
    unfold matchesb in Ht.
    unfold callHash, bind, emit, call, when, console_log, ret.
    destruct (external_in_of (inMessage t)) as [[mt dt]|] eqn:Et.
    + destruct (external_in_of_Some _ _ _ Et) as (_ & s & f & Hi).
      rewrite (getNormalizedExtMessageHash_external_in mt s dt f Hi) in *.
      rewrite Ht.
      destruct (search c h n (S i) (pre ++ tx :: post)) as [ts r].
      destruct (verbose c); cbn in *; auto.
    + destruct (search c h n (S i) (pre ++ tx :: post)) as [ts r].
      destruct (verbose c); cbn in *; auto.
Qed.

(** What the loop prints is part of what the run prints. *)
Lemma search_in_run (c : Config) (cell : Cell) (msg : Message) s d f
    (txs : list Transaction) (ev : Event) :
  Cell_fromBase64 (boc c) = Ok cell ->
  loadMessage cell = Ok msg ->
  info msg = ExternalIn s d f ->
  getTransactions (endpoint_of c) (apiKey c) d (limit c) true = Ok txs ->
  txs <> [] ->
  In ev (fst (search c (target_hash d (body msg)) (List.length txs) 0 txs)) ->
  In ev (fst (verifyBoc_try c)).
Proof.
  intros Hb Hl Hi Hg Hne. unfold verifyBoc_try.
  unfold callHash, bind, emit, call, when, console_log, ret, throw.
  rewrite Hb, Hl, Hi.
  rewrite (getNormalizedExtMessageHash_external_in msg s d f Hi).
  fold (endpoint_of c). fold (target_hash d (body msg)). rewrite Hg.
  destruct txs as [|tx0 txs']; [congruence|].
  change (List.length (tx0 :: txs') =? 0)%nat with false. cbv iota.
  destruct (search c _ _ _ _) as [ts [[bo|]|e]]; cbn [fst]; intros Hin;
    destruct (verbose c), (truthy (apiKey c)); cbn;
    repeat right; rewrite ?app_nil_r; auto using in_or_app.
Qed.

(** X15: on a match the report names the transaction found: its logical
    time, its cell hash, its time (in milliseconds), the destination of
    its inbound message, and, when it has outbound messages, their number
    and the destination of the first if that one is internal. *)
Theorem found_report_details (c : Config) (cell : Cell) (msg : Message) s d f
    (target : Digest) (pre : list Transaction) (tx : Transaction)
    (post : list Transaction) (m : Message) s' d' f' :
  Cell_fromBase64 (boc c) = Ok cell ->
  loadMessage cell = Ok msg ->
  info msg = ExternalIn s d f ->
  getNormalizedExtMessageHash msg = Ok target ->
  getTransactions (endpoint_of c) (apiKey c) d (limit c) true
    = Ok (pre ++ tx :: post) ->
  Forall (fun t => matchesb target t = false) pre ->
  inMessage tx = Some m ->
  info m = ExternalIn s' d' f' ->
  getNormalizedExtMessageHash m = Ok target ->
  Forall (fun ev => In ev (fst (verifyBoc c))) (report_lines tx d' ++ out_lines tx).
Proof.
  intros Hb Hl Hi Ht Hg Hpre Hin Him Hhash.
  rewrite (getNormalizedExtMessageHash_external_in msg s d f Hi) in Ht.
  injection Ht as <-. fold (target_hash d (body msg)) in Hpre, Hhash.
  assert (Hext : external_in_of (inMessage tx) = Some (m, d'))
    by (unfold external_in_of; now rewrite Hin, Him).
  assert (Hm : matchesb (target_hash d (body msg)) tx = true).
  { unfold matchesb. rewrite Hext, Hhash. now apply Buffer_equals_eq. }
  apply Forall_forall. intros ev Hev. apply list_elem_of_In in Hev.
  unfold verifyBoc.
  assert (Hrun : In ev (fst (verifyBoc_try c))).
  { apply (search_in_run c cell msg s d f (pre ++ tx :: post) ev Hb Hl Hi Hg).
    - now destruct pre.
    - now apply (search_reports c _ _ pre tx post m d'). }
  destruct (verifyBoc_try c) as [t [b|e]]; cbn [fst] in *; [exact Hrun|].
  apply in_or_app. now left.
Qed.

(** X16: after a scan without a match the run says so, quoting the
    configured limit (not the number of transactions it was given), and
    returns [false]. *)
Theorem not_found_line_quotes_limit (c : Config) (cell : Cell) (msg : Message)
    s d f (target : Digest) (txs : list Transaction) :
  Cell_fromBase64 (boc c) = Ok cell ->
  loadMessage cell = Ok msg ->
  info msg = ExternalIn s d f ->
  getNormalizedExtMessageHash msg = Ok target ->
  getTransactions (endpoint_of c) (apiKey c) d (limit c) true = Ok txs ->
  txs <> [] ->
  Forall (fun t => matchesb target t = false) txs ->
  exists t, verifyBoc c = (t, false) /\ In (not_found_line c) t.
Proof.
  intros Hb Hl Hi Ht Hg Hne Hno.
  rewrite (getNormalizedExtMessageHash_external_in msg s d f Hi) in Ht.
  injection Ht as <-. fold (target_hash d (body msg)) in Hno.
  apply first_match_None in Hno.
  unfold verifyBoc, verifyBoc_try, not_found_line.
  unfold callHash, bind, emit, call, when, console_log, ret, throw.
  rewrite Hb, Hl, Hi.
  rewrite (getNormalizedExtMessageHash_external_in msg s d f Hi).
  fold (endpoint_of c). fold (target_hash d (body msg)). rewrite Hg.
  destruct (search_spec c (target_hash d (body msg)) (List.length txs) txs 0%nat)
    as (ts & Hs & _).
  rewrite Hno in Hs.
  destruct txs as [|tx0 txs']; [congruence|].
  change (List.length (tx0 :: txs') =? 0)%nat with false. cbv iota.
  rewrite Hs.
  destruct (verbose c), (truthy (apiKey c)); cbn; eexists;
    (split; [reflexivity|]); repeat right; apply in_or_app; right; now left.
Qed.

End ReportFacts.

(** * Runs in the sample world *)

Section Runs.
#[local] Existing Instance Sample.core.
#[local] Existing Instance Sample.client.
#[local] Existing Instance Sample.builtins.

Lemma normalized_hash_of_external_in_run :
  exists nm : Message,
    NormalizedMessage Sample.msg_sent = Some nm /\
    info nm = ExternalIn None Sample.addrA 0%Z /\ init nm = None /\
    body nm = body Sample.msg_sent /\
    getNormalizedExtMessageHash Sample.msg_sent =
      Ok (Cell_hash (storeMessage nm true)) /\
    (forall (h : gmap loc (gmap string Value)) (l : loc),
       read_message h l = Some Sample.msg_sent ->
       exists h' l',
         getNormalizedExtMessageHash_obj h l
           = (h', Some (Ok (Cell_hash (storeMessage nm true)))) /\
         h !! l' = None /\ read_message h' l' = Some nm).
Proof.
  apply (normalized_hash_of_external_in Sample.msg_sent
           (Some Sample.ext1) Sample.addrA 5%Z).
  reflexivity.
Defined.

Lemma normalized_hash_unsupported_type_run :
  getNormalizedExtMessageHash Sample.msg_internal =
    Throw (MkError ("Message must be " +:+ dquote +:+ "external-in" +:+ dquote
                    +:+ ", got " +:+ info_type (info Sample.msg_internal))).
Proof.
  apply (proj1 (normalized_hash_unsupported_type Sample.msg_internal)).
  simpl. discriminate.
Defined.

Lemma normalized_hash_invariant_run :
  exists dg : Digest,
    getNormalizedExtMessageHash Sample.msg_sent = Ok dg /\
    getNormalizedExtMessageHash Sample.msg_landed = Ok dg /\
    List.length dg = 32%nat.
Proof.
  apply (normalized_hash_invariant Sample.msg_sent Sample.msg_landed).
  exists (Some Sample.ext1), None, Sample.addrA, 5%Z, 0%Z.
  repeat split; reflexivity.
Defined.

(** Four transactions, the fourth alone matches: position 4 of 4. *)
Lemma verifyBoc_first_match_wins_run :
  exists t : list Event,
    verifyBoc (Sample.config_of "sent") = (t, true) /\
    indices t = seq 0 (3 + 1) /\
    hashed t =
      Sample.msg_sent
      :: candidates ([Sample.tx_internal; Sample.tx_tick; Sample.tx_other]
                     ++ [Sample.tx_landed]) /\
    In (position_line (3 + 1) 4) t.
Proof.
  apply (verifyBoc_first_match_wins (Sample.config_of "sent")
           (MkCell [true] []) Sample.msg_sent (Some Sample.ext1) Sample.addrA 5%Z
           (Cell_hash (storeMessage Sample.msg_landed true))
           [Sample.tx_internal; Sample.tx_tick; Sample.tx_other]
           Sample.tx_landed []).
  - reflexivity.
  - reflexivity.
  - reflexivity.
  - reflexivity.
  - reflexivity.
  - repeat constructor.
  - reflexivity.
Defined.

Lemma search_skips_non_external_in_run :
  snd (search (Sample.config_of "sent") Sample.digest0 2 0
         [Sample.tx_tick; Sample.tx_internal])
    = snd (search (Sample.config_of "sent") Sample.digest0 2 1 [Sample.tx_internal]) /\
  hashed (fst (search (Sample.config_of "sent") Sample.digest0 2 0
                 [Sample.tx_tick; Sample.tx_internal]))
    = hashed (fst (search (Sample.config_of "sent") Sample.digest0 2 1
                     [Sample.tx_internal])) /\
  indices (fst (search (Sample.config_of "sent") Sample.digest0 2 0
                  [Sample.tx_tick; Sample.tx_internal]))
    = 0%nat :: indices (fst (search (Sample.config_of "sent") Sample.digest0 2 1
                          [Sample.tx_internal])).
Proof.
  apply (proj1 (search_skips_non_external_in (Sample.config_of "sent")
                  Sample.digest0 2) 0%nat Sample.tx_tick [Sample.tx_internal]).
  left. reflexivity.
Defined.

Lemma verifyBoc_empty_fetch_run :
  exists t : list Event,
    verifyBoc_try (Sample.config_of "to-B") = (t, Ok false) /\
    verifyBoc (Sample.config_of "to-B") = (t, false) /\
    error_count t = 0%nat /\
    indices t = [] /\
    last t = Some no_transactions_line.
Proof.
  apply (verifyBoc_empty_fetch (Sample.config_of "to-B")
           (MkCell [true; true] []) Sample.msg_to_B None Sample.addrB 0%Z);
    reflexivity.
Defined.

Lemma verifyBoc_fetches_at_most_once_run :
  fetch_count (fst (verifyBoc (Sample.config_of "internal"))) = 0%nat.
Proof.
  apply (proj2 (proj2 (proj2 (proj2
           (verifyBoc_fetches_at_most_once (Sample.config_of "internal")))))
           (MkCell [false] []) Sample.msg_internal).
  - reflexivity.
  - reflexivity.
  - simpl. discriminate.
Defined.

Lemma verifyBoc_result_is_boolean_run :
  snd (verifyBoc (Sample.config_of "sent")) =
    match first_match (target_hash Sample.addrA (body Sample.msg_sent))
            [Sample.tx_internal; Sample.tx_tick; Sample.tx_other; Sample.tx_landed]
    with
    | Some _ => true
    | None => false
    end.
Proof.
  apply (proj1 (proj2 (proj2
           (verifyBoc_result_is_boolean (Sample.config_of "sent"))))
           (MkCell [true] []) Sample.msg_sent (Some Sample.ext1) Sample.addrA 5%Z);
    reflexivity.
Defined.

(** A malformed container, an internal message, a failed fetch and a
    plain miss: the caller gets [false] each time, and [main] exits with
    code 1 each time. *)
Lemma verifyBoc_outcomes_collapse :
  (exists t e, verifyBoc_try (Sample.config_of "not base64") = (t, Throw e) /\
               fetch_count t = 0%nat /\
               verifyBoc (Sample.config_of "not base64") = (t ++ on_error (Sample.config_of "not base64") e, false)) /\
  (exists t, verifyBoc_try (Sample.config_of "internal") =
               (t, Throw (MkError "Expected external-in message, got internal"))) /\
  (exists t, verifyBoc_try (set_network (Some "nonet") (Sample.config_of "sent")) =
               (t, Throw (MkError "Invalid URL")) /\ fetch_count t = 1%nat) /\
  (exists t, verifyBoc_try (Sample.config_of "to-B") = (t, Ok false)) /\
  snd (verifyBoc (Sample.config_of "not base64")) = false /\
  snd (verifyBoc (Sample.config_of "internal")) = false /\
  snd (verifyBoc (set_network (Some "nonet") (Sample.config_of "sent"))) = false /\
  snd (verifyBoc (Sample.config_of "to-B")) = false /\
  snd (main ["not base64"]) = 1%Z /\
  snd (main ["internal"]) = 1%Z /\
  snd (main ["sent"; "--network"; "nonet"]) = 1%Z /\
  snd (main ["to-B"]) = 1%Z.
Proof.
  repeat split; try reflexivity.
  - eexists. eexists. repeat split; reflexivity.
  - eexists. reflexivity.
  - eexists. split; reflexivity.
  - eexists. reflexivity.
Qed.

Lemma normalized_hash_is_pure_run :
  exists h' : gmap loc (gmap string Value),
    getNormalizedExtMessageHash_obj SampleStore.store0 2%positive
      = (h', Some (getNormalizedExtMessageHash Sample.msg_sent)) /\
    SampleStore.store0 ⊆ h' /\
    read_message h' 2%positive = Some Sample.msg_sent /\
    (info_type (info Sample.msg_sent) = "external-in" ->
       exists l', SampleStore.store0 !! l' = None /\
                  read_message h' l' = NormalizedMessage Sample.msg_sent) /\
    (getNormalizedExtMessageHash_obj h' 2%positive).2
      = (getNormalizedExtMessageHash_obj SampleStore.store0 2%positive).2.
Proof.
  apply (normalized_hash_is_pure SampleStore.store0 2%positive Sample.msg_sent).
  reflexivity.
Defined.

Lemma unchecked_network_reaches_client_run :
  parseArgs ["sent"; "--network"; "nonet"] =
    Parsed {| boc := "sent"; network := Some "nonet"; apiKey := None;
              limit := Num 10; verbose := false |} /\
  endpoint_of (set_network (Some "nonet") (Sample.config_of "sent")) = VUndefined /\
  In (EvNewClient (endpoint_of (set_network (Some "nonet") (Sample.config_of "sent"))) None)
     (fst (verifyBoc (set_network (Some "nonet") (Sample.config_of "sent")))).
Proof.
  assert (Hk : ~ known_network
                 (property_key (network (set_network (Some "nonet")
                                           (Sample.config_of "sent"))))).
  { simpl. intros [Hk | Hk]; discriminate. }
  destruct (proj2 unchecked_network_reaches_client
              (set_network (Some "nonet") (Sample.config_of "sent")) Hk)
    as (_ & Hu & _ & Hin).
  split; [|split].
  - apply (proj1 unchecked_network_reaches_client); discriminate.
  - apply Hu. refine (bool_decide_unpack _ _). vm_compute. exact I.
  - apply (Hin (MkCell [true] []) Sample.msg_sent); reflexivity.
Defined.

(** [--network constructor]: the value is neither [mainnet] nor
    [testnet], it is accepted, and the lookup in [ENDPOINTS] does not give
    [undefined]: it gives the member inherited from [Object.prototype]. *)
Lemma network_constructor_is_not_undefined :
  "constructor" <> "mainnet" /\ "constructor" <> "testnet" /\
  parseArgs ["sent"; "--network"; "constructor"] =
    Parsed {| boc := "sent"; network := Some "constructor"; apiKey := None;
              limit := Num 10; verbose := false |} /\
  js_get ENDPOINTS (property_key (Some "constructor")) = VInherited "constructor" /\
  js_get ENDPOINTS (property_key (Some "constructor")) <> VUndefined /\
  In (EvNewClient (VInherited "constructor") None)
     (fst (verifyBoc (set_network (Some "constructor") (Sample.config_of "sent")))).
Proof.
  repeat split; try discriminate; try reflexivity.
  vm_compute. tauto.
Qed.

End Runs.


(** * More runs in the sample world *)

Section MoreRuns.
#[local] Existing Instance Sample.core.
#[local] Existing Instance Sample.client.
#[local] Existing Instance Sample.builtins.

Lemma parseArgs_keeps_boc_run :
  boc {| boc := "sent"; network := Some "testnet"; apiKey := None;
         limit := Num 50; verbose := true |} = "sent".
Proof.
  apply (parseArgs_keeps_boc "sent"
           ["--limit"; "50"; "--verbose"; "--network"; "testnet"]).
  reflexivity.
Defined.

Lemma parseArgs_defaults_run :
  network {| boc := "sent"; network := Some "mainnet"; apiKey := None;
             limit := Num 50; verbose := true |} = Some "mainnet".
Proof.
  refine (proj1 (parseArgs_defaults "sent" ["--limit"; "50"; "--verbose"] _ _) _).
  - reflexivity.
  - refine (bool_decide_unpack _ _). vm_compute. exact I.
Defined.

Lemma verifyBoc_finds_landed_message_run :
  snd (verifyBoc (Sample.config_of "sent")) = true.
Proof.
  apply (verifyBoc_finds_landed_message (Sample.config_of "sent")
           (MkCell [true] []) Sample.msg_sent (Some Sample.ext1) Sample.addrA 5%Z
           [Sample.tx_internal; Sample.tx_tick; Sample.tx_other; Sample.tx_landed]
           Sample.tx_landed Sample.msg_landed).
  - reflexivity.
  - reflexivity.
  - reflexivity.
  - reflexivity.
  - simpl. tauto.
  - reflexivity.
  - exists (Some Sample.ext1), None, Sample.addrA, 5%Z, 0%Z.
    repeat split; reflexivity.
Defined.

Lemma verifyBoc_true_is_a_match_run :
  exists cell msg s d f target txs k tx m,
    Cell_fromBase64 (boc (Sample.config_of "sent")) = Ok cell /\
    loadMessage cell = Ok msg /\
    info msg = ExternalIn s d f /\
    getNormalizedExtMessageHash msg = Ok target /\
    getTransactions (endpoint_of (Sample.config_of "sent"))
      (apiKey (Sample.config_of "sent")) d (limit (Sample.config_of "sent")) true
      = Ok txs /\
    txs !! k = Some tx /\
    inMessage tx = Some m /\
    getNormalizedExtMessageHash m = Ok target /\
    (forall j tx', (j < k)%nat -> txs !! j = Some tx' -> matchesb target tx' = false) /\
    In (position_line (k + 1) (List.length txs))
       (fst (verifyBoc (Sample.config_of "sent"))).
Proof.
  apply (verifyBoc_true_is_a_match (Sample.config_of "sent")).
  reflexivity.
Defined.

Lemma verifyBoc_decode_failure_run :
  snd (verifyBoc (Sample.config_of "not base64")) = false /\
  hashed (fst (verifyBoc (Sample.config_of "not base64"))) = [] /\
  indices (fst (verifyBoc (Sample.config_of "not base64"))) = [] /\
  (forall ep k, ~ In (EvNewClient ep k) (fst (verifyBoc (Sample.config_of "not base64")))) /\
  In (EvError [AStr (Lit (nl +:+ "❌ Error:"));
               AStr (Lit (message (MkError "Invalid base64 BOC")))])
     (fst (verifyBoc (Sample.config_of "not base64"))).
Proof.
  apply (verifyBoc_decode_failure (Sample.config_of "not base64")
           (MkError "Invalid base64 BOC")).
  left. reflexivity.
Defined.

Lemma verifyBoc_fetch_failure_run :
  snd (verifyBoc (set_network (Some "nonet") (Sample.config_of "sent"))) = false /\
  fetch_count (fst (verifyBoc (set_network (Some "nonet") (Sample.config_of "sent"))))
    = 1%nat /\
  hashed (fst (verifyBoc (set_network (Some "nonet") (Sample.config_of "sent"))))
    = [Sample.msg_sent] /\
  indices (fst (verifyBoc (set_network (Some "nonet") (Sample.config_of "sent")))) = [] /\
  In (EvError [AStr (Lit (nl +:+ "❌ Error:"));
               AStr (Lit (message (MkError "Invalid URL")))])
     (fst (verifyBoc (set_network (Some "nonet") (Sample.config_of "sent")))).
Proof.
  apply (verifyBoc_fetch_failure (set_network (Some "nonet") (Sample.config_of "sent"))
           (MkCell [true] []) Sample.msg_sent (Some Sample.ext1) Sample.addrA 5%Z
           (MkError "Invalid URL"));
    reflexivity.
Defined.

Lemma verifyBoc_fetch_target_run :
  fetches (fst (verifyBoc (Sample.config_of "sent"))) =
    [EvGetTransactions (endpoint_of (Sample.config_of "sent"))
       (apiKey (Sample.config_of "sent")) Sample.addrA
       (limit (Sample.config_of "sent")) true] /\
  In (EvNewClient (endpoint_of (Sample.config_of "sent"))
        (apiKey (Sample.config_of "sent")))
     (fst (verifyBoc (Sample.config_of "sent"))).
Proof.
  apply (verifyBoc_fetch_target (Sample.config_of "sent")
           (MkCell [true] []) Sample.msg_sent (Some Sample.ext1) Sample.addrA 5%Z);
    reflexivity.
Defined.


Lemma normalized_hash_of_normal_form_run :
  getNormalizedExtMessageHash Sample.msg_landed
    = Ok (Cell_hash (storeMessage Sample.msg_landed true)).
Proof.
  apply (proj1 (normalized_hash_of_normal_form Sample.msg_landed) Sample.addrA);
    reflexivity.
Defined.



Lemma found_report_details_run :
  Forall (fun ev => In ev (fst (verifyBoc (Sample.config_of "sent"))))
    (report_lines Sample.tx_landed Sample.addrA ++ out_lines Sample.tx_landed).
Proof.
  apply (found_report_details (Sample.config_of "sent")
           (MkCell [true] []) Sample.msg_sent (Some Sample.ext1) Sample.addrA 5%Z
           (Cell_hash (storeMessage Sample.msg_landed true))
           [Sample.tx_internal; Sample.tx_tick; Sample.tx_other]
           Sample.tx_landed [] Sample.msg_landed None Sample.addrA 0%Z);
    try reflexivity.
  repeat constructor.
Defined.

End MoreRuns.

Section RunsBefore.
#[local] Existing Instance Sample.core.
#[local] Existing Instance SampleBefore.client.

Lemma verifyBoc_no_match_scans_all_run :
  exists t : list Event,
    verifyBoc (Sample.config_of "sent") = (t, false) /\
    indices t = seq 0 3 /\
    hashed t =
      Sample.msg_sent
      :: candidates [Sample.tx_internal; Sample.tx_tick; Sample.tx_other] /\
    error_count t = 0%nat.
Proof.
  apply (verifyBoc_no_match_scans_all (Sample.config_of "sent")
           (MkCell [true] []) Sample.msg_sent (Some Sample.ext1) Sample.addrA 5%Z
           (Cell_hash (storeMessage Sample.msg_landed true))
           [Sample.tx_internal; Sample.tx_tick; Sample.tx_other]);
    try reflexivity.
  repeat constructor.
Defined.

Lemma not_found_line_quotes_limit_run :
  exists t,
    verifyBoc (set_limit (Num 50) (Sample.config_of "sent")) = (t, false) /\
    In (not_found_line (set_limit (Num 50) (Sample.config_of "sent"))) t.
Proof.
  apply (not_found_line_quotes_limit (set_limit (Num 50) (Sample.config_of "sent"))
           (MkCell [true] []) Sample.msg_sent (Some Sample.ext1) Sample.addrA 5%Z
           (Cell_hash (storeMessage Sample.msg_landed true))
           [Sample.tx_internal; Sample.tx_tick; Sample.tx_other]);
    try reflexivity.
  - discriminate.
  - repeat constructor.
Defined.

End RunsBefore.
